(** * YouTube-Transcript-Generator: a shallow embedding of the two scripts

    [1-youtube_video_info_extractor.py] (the metadata collector) and
    [2-openai_transcript_generator.py] (the batch transcriber) are
    translated function by function.  Python [str] values are Rocq
    strings (code points below 256), Python [int] values are [Z] (the
    interpreter's limit on the length of a decimal literal is left out), the
    working directory is a finite map from file names to contents, and
    code that prints, touches the file system or raises runs in a small
    state-and-exception monad. *)

From Stdlib Require Import ZArith Ascii String DecimalString DecimalPos DecimalN DecimalZ Sorted.
From stdpp Require Import base option list gmap strings.

Local Open Scope string_scope.

(** ** Python string primitives used by the scripts *)

Module Py.

(** [sub in s] for two strings. *)
Fixpoint contains (sub s : string) : bool :=
  String.prefix sub s ||
  match s with
  | EmptyString => false
  | String _ s' => contains sub s'
  end.

(** [s.endswith(suffix)]. *)
Fixpoint endswith (s suffix : string) : bool :=
  String.eqb s suffix ||
  match s with
  | EmptyString => false
  | String _ s' => endswith s' suffix
  end.

(** The scanning loop of [s.split(sep)] for a non-empty [sep]: [skip]
    counts the characters of a separator occurrence still to be jumped
    over, [cur] is the piece being collected. *)
Fixpoint split_scan (sep s : string) (skip : nat) (cur : string) : list string :=
  match s with
  | EmptyString => [cur]
  | String c s' =>
      match skip with
      | S k => split_scan sep s' k cur
      | O =>
          if String.prefix sep s
          then cur :: split_scan sep s' (String.length sep - 1) EmptyString
          else split_scan sep s' 0 (cur ++ String c EmptyString)
      end
  end.

Definition split (sep s : string) : list string := split_scan sep s 0 EmptyString.

(** [s.replace(old, new)] for a non-empty [old]: every non-overlapping
    occurrence, scanning from the left. *)
Fixpoint replace_scan (old new s : string) (skip : nat) : string :=
  match s with
  | EmptyString => EmptyString
  | String c s' =>
      match skip with
      | S k => replace_scan old new s' k
      | O =>
          if String.prefix old s
          then new ++ replace_scan old new s' (String.length old - 1)
          else String c (replace_scan old new s' 0)
      end
  end.

Definition replace (old new s : string) : string := replace_scan old new s 0.

(** [str.isspace] on one code point below 256. *)
Definition isspace (c : ascii) : bool :=
  let n := nat_of_ascii c in
  (Nat.leb 9 n && Nat.leb n 13) || (Nat.leb 28 n && Nat.leb n 32)
  || Nat.eqb n 133 || Nat.eqb n 160.

Fixpoint lstrip (s : string) : string :=
  match s with
  | EmptyString => EmptyString
  | String c s' => if isspace c then lstrip s' else s
  end.

Fixpoint rstrip (s : string) : string :=
  match s with
  | EmptyString => EmptyString
  | String c s' =>
      match rstrip s' with
      | EmptyString => if isspace c then EmptyString else String c EmptyString
      | r => String c r
      end
  end.

(** [s.strip()]. *)
Definition strip (s : string) : string := rstrip (lstrip s).

(** [s[n:]]. *)
Fixpoint slice_from (n : nat) (s : string) : string :=
  match n, s with
  | O, _ => s
  | S k, EmptyString => EmptyString
  | S k, String _ s' => slice_from k s'
  end.

(** [l[-1]] on a list that [split] returned (never empty). *)
Definition last_piece (l : list string) : string := List.last l EmptyString.

(** [l[0]] on a list that [split] returned (never empty). *)
Definition first_piece (l : list string) : string := List.hd EmptyString l.

Definition digit_val (c : ascii) : option Z :=
  let n := nat_of_ascii c in
  if Nat.leb 48 n && Nat.leb n 57 then Some (Z.of_nat (n - 48)) else None.

(** The digits of an [int()] literal: decimal digits, a single
    underscore allowed between two digits.  [prev_digit] tells whether
    the previous character was a digit. *)
Fixpoint int_digits (s : string) (acc : Z) (prev_digit : bool) : option Z :=
  match s with
  | EmptyString => if prev_digit then Some acc else None
  | String c s' =>
      match digit_val c with
      | Some d => int_digits s' (10 * acc + d) true
      | None =>
          if Ascii.eqb c "_"%char && prev_digit
          then match s' with
               | EmptyString => None
               | String c' _ =>
                   match digit_val c' with
                   | Some _ => int_digits s' acc false
                   | None => None
                   end
               end
          else None
      end
  end.

(** [int(s)]: surrounding whitespace is ignored, then an optional sign
    and the digits; [None] stands for the [ValueError] Python raises. *)
Definition int_of_str (s : string) : option Z :=
  match strip s with
  | String "+"%char r => int_digits r 0 false
  | String "-"%char r => Z.opp <$> int_digits r 0 false
  | r => int_digits r 0 false
  end.

(** [str(z)] for an integer. *)
Definition str_of_int (z : Z) : string := NilZero.string_of_int (Z.to_int z).

(** [format(z, "02")]: zero padding to width two. *)
Definition fmt_02 (z : Z) : string :=
  let s := str_of_int z in
  if Nat.ltb (String.length s) 2 then "0" ++ s else s.

End Py.

(** ** Exceptions and the state-and-exception monad *)

(** The exception classes the two scripts can meet.  [InvalidURL] is the
    family of [requests] exceptions that derive from both
    [RequestException] and [ValueError]; [Exception msg cause] is the
    plain [Exception(msg, cause)] that [get_video_info] builds. *)
Inductive exn : Type :=
  | ValueError (msg : string)
  | IndexError (msg : string)
  | TypeError (msg : string)
  | AttributeError (msg : string)
  | InvalidURL (msg : string)
  | RequestException (msg : string)
  | ExtractorError (msg : string)
  | DownloadError (msg : string)
  | OtherError (msg : string)
  | Exception (msg : string) (cause : exn).

(** How a call ends: it returns a value or raises. *)
Inductive outcome (A : Type) : Type :=
  | Returned (a : A)
  | Raised (e : exn).
Arguments Returned {A} a.
Arguments Raised {A} e.

Definition obind {A B : Type} (o : outcome A) (k : A -> outcome B) : outcome B :=
  match o with
  | Returned a => k a
  | Raised e => Raised e
  end.

(** A computation over a world [W]: the world is threaded through, and
    survives an exception (what was printed or written stays so). *)
Definition M (W A : Type) : Type := W -> outcome A * W.

Definition ret {W A : Type} (a : A) : M W A := fun w => (Returned a, w).
Definition raise {W A : Type} (e : exn) : M W A := fun w => (Raised e, w).
Definition bind {W A B : Type} (m : M W A) (k : A -> M W B) : M W B :=
  fun w =>
    match m w with
    | (Returned a, w') => k a w'
    | (Raised e, w') => (Raised e, w')
    end.
Definition lift {W A : Type} (o : outcome A) : M W A := fun w => (o, w).

Declare Scope py_scope.
Delimit Scope py_scope with py.
Notation "x <- m ;; k" := (bind m (fun x => k))
  (at level 100, m at next level, right associativity) : py_scope.
Notation "m ;;; k" := (bind m (fun _ => k))
  (at level 100, right associativity) : py_scope.

(** ** The metadata collector: [1-youtube_video_info_extractor.py] *)

Module Collector.

Definition convert_short_youtube_url (short_url : string) : string :=
  if Py.contains "youtu.be" short_url
  then
    let video_id := Py.last_piece (Py.split "youtu.be/" short_url) in
    let video_id := Py.first_piece (Py.split "?" video_id) in
    "https://www.youtube.com/watch?v=" ++ video_id
  else short_url.

Definition clean_url (url : string) : string :=
  let url := convert_short_youtube_url url in
  let url_parts := Py.split "&" url in
  Py.strip (Py.first_piece url_parts).

(** What [soup.find("meta", itemprop=...)] followed by [.get("content")]
    can see: no such tag ([None]), a tag without a [content] attribute
    ([Some None]), or a tag with its content. *)
Definition meta : Type := option (option string).

(** The parsed page, as far as the script looks at it. *)
Record Soup : Type := {
  itemprop_identifier : meta;
  itemprop_name : meta;
  itemprop_datePublished : meta;
  itemprop_duration : meta
}.

Definition get_title (soup : Soup) : option string :=
  match itemprop_name soup with
  | Some content => content
  | None => None
  end.

Definition get_video_ID (soup : Soup) : option string :=
  match itemprop_identifier soup with
  | Some content => content
  | None => None
  end.

(** Lines 49-54: the duration string is [PT<minutes>M<seconds>S]. *)
Definition parse_duration (duration_str : string) : outcome (string * Z) :=
  let by_M := Py.split "M" duration_str in
  match Py.int_of_str (Py.slice_from 2 (Py.first_piece by_M)) with
  | None => Raised (ValueError "invalid literal for int() with base 10")
  | Some minutes =>
      match by_M !! 1%nat with
      | None => Raised (IndexError "list index out of range")
      | Some after_M =>
          match Py.int_of_str (Py.first_piece (Py.split "S" after_M)) with
          | None => Raised (ValueError "invalid literal for int() with base 10")
          | Some seconds =>
              let hours := (minutes / 60)%Z in
              let minutes := (minutes mod 60)%Z in
              let duration :=
                if (0 <? hours)%Z
                then Py.str_of_int hours ++ ":" ++ Py.fmt_02 minutes ++ ":" ++ Py.fmt_02 seconds
                else Py.str_of_int minutes ++ ":" ++ Py.fmt_02 seconds in
              let duration_sec := (hours * 3600 + minutes * 60 + seconds)%Z in
              Returned (duration, duration_sec)
          end
      end
  end.

Definition get_duration (soup : Soup) : outcome (option (string * Z)) :=
  match itemprop_duration soup with
  | Some content =>
      match content with
      | None => Raised (AttributeError "'NoneType' object has no attribute 'split'")
      | Some duration_str => obind (parse_duration duration_str) (fun d => Returned (Some d))
      end
  | None => Returned None
  end.

(** The dictionary [get_video_info] returns. *)
Record VideoInfo : Type := {
  Video_ID : string;
  Video_Title : string;
  Date_Published : string;
  Duration : string;
  Duration_sec : Z
}.

(** The same dictionary once the loop has added ['URL'] and ['Number']. *)
Record ItemRecord : Type := {
  Number : Z;
  info : VideoInfo;
  URL : string
}.

(** What [requests.get], [raise_for_status] and the HTML parser give for
    a URL: the parsed page, or the exception one of them raised. *)
Inductive fetch_result : Type :=
  | Fetched (soup : Soup)
  | FetchFailed (e : exn).

(** Python truthiness of a string or [None]. *)
Definition truthy (o : option string) : bool :=
  match o with
  | Some s => negb (String.eqb s "")
  | None => false
  end.

(** The three [except] clauses of [get_video_info], in order. *)
Definition reraise (e : exn) : exn :=
  match e with
  | ValueError _ | InvalidURL _ => e
  | RequestException _ => Exception "Error occurred during request:" e
  | _ => Exception "An error occurred during scraping:" e
  end.

Definition fieldnames : list string :=
  ["Number"; "Video ID"; "URL"; "Video Title"; "Date Published"; "Duration"; "Duration (sec)"].

(** One row as [csv.DictWriter] writes it, in [fieldnames] order. *)
Definition csv_row (r : ItemRecord) : list string :=
  [Py.str_of_int (Number r); Video_ID (info r); URL r; Video_Title (info r);
   Date_Published (info r); Duration (info r); Py.str_of_int (Duration_sec (info r))].

(** The collector's world: the text of the CSV files, by name, and
    what was printed. *)
Record World : Type := {
  csv_files : gmap string string;
  stdout : list string
}.

Definition print (line : string) : M World unit :=
  fun w => (Returned tt, {| csv_files := csv_files w; stdout := (stdout w ++ [line])%list |}).

Definition is_valid_youtube_url (url : string) : bool :=
  if Py.contains "youtube.com/watch" url || Py.contains "youtu.be" url then true else false.

Section Scraping.

(** The page fetcher and the date conversion
    [strptime(_, "%Y-%m-%dT%H:%M:%S%z").strftime("%d-%m-%Y")] ([None] is
    its [ValueError]) are library code, taken as given. *)
Variable fetch : string -> fetch_result.
Variable strptime_strftime : string -> option string.

(** The [csv] module and the file system, taken as given as well: the
    rows [csv.reader] finds in the text of a file, the line
    [writer.writerow] writes for a row, and the message of the
    exception that opening a path for appending raises, if it does. *)
Variable csv_reader : string -> list (list string).
Variable csv_writerow : list string -> string.
Variable open_append_error : string -> option string.

Definition read_urls_from_csv (input_file : string) : M World (list string) :=
  fun w =>
    match csv_files w !! input_file with
    | Some text =>
        ret (omap (fun row =>
                     match row with
                     | url :: _ => if is_valid_youtube_url url then Some url else None
                     | [] => None
                     end) (csv_reader text)) w
    | None => (print "Error: Input file not found." ;;; ret [])%py w
    end.

(** [writer.writerows]: the lines of the records, one after the
    other. *)
Definition writerows (video_info_list : list ItemRecord) : string :=
  foldr (fun r text => csv_writerow (csv_row r) ++ text) "" video_info_list.

(** Appending to the output file: the header goes first when the file
    holds nothing, then one line per record; the text the file had
    stays as it is.  When the file cannot be opened the [except]
    branch prints the error and nothing is written. *)
Definition write_video_info_to_csv (video_info_list : list ItemRecord)
    (output_file : string) (fieldnames : list string) : M World unit :=
  fun w =>
    match open_append_error output_file with
    | Some e => print ("Error: " ++ e) w
    | None =>
        let old := default "" (csv_files w !! output_file) in
        let header := if String.eqb old "" then csv_writerow fieldnames else "" in
        print ("Videos Information have been extracted and exported to " ++ output_file)
          {| csv_files := <[output_file := old ++ header ++ writerows video_info_list]>
                            (csv_files w);
             stdout := stdout w |}
    end.

Definition get_date_published (soup : Soup) : outcome (option string) :=
  match itemprop_datePublished soup with
  | Some content =>
      match content with
      | None => Raised (TypeError "strptime() argument 1 must be str, not None")
      | Some date_published =>
          match strptime_strftime date_published with
          | Some d => Returned (Some d)
          | None => Raised (ValueError "time data does not match format")
          end
      end
  | None => Returned None
  end.

(** The body of the [try] block. *)
Definition get_video_info_body (url : string) : outcome (option VideoInfo) :=
  if negb (Py.contains "youtube.com/watch" url)
  then Raised (ValueError "Invalid YouTube video URL.")
  else
    match fetch url with
    | FetchFailed e => Raised e
    | Fetched soup =>
        let video_ID := get_video_ID soup in
        let video_title := get_title soup in
        obind (get_date_published soup) (fun date_published =>
        obind (get_duration soup) (fun duration =>
          match duration with
          | Some (d, d_sec) =>
              if truthy video_title && truthy video_ID && truthy date_published
              then Returned (Some {| Video_ID := default "" video_ID;
                                     Video_Title := default "" video_title;
                                     Date_Published := default "" date_published;
                                     Duration := d;
                                     Duration_sec := d_sec |})
              else Returned None
          | None => Returned None
          end))
    end.

Definition get_video_info (url : string) : outcome (option VideoInfo) :=
  match get_video_info_body url with
  | Returned r => Returned r
  | Raised e => Raised (reraise e)
  end.

(** The body of the [for number, url in enumerate(urls, start=1)] loop,
    from the item numbered [number] on. *)
Fixpoint scrape_loop (number : Z) (urls : list string)
    (video_info_list : list ItemRecord) : M World (list ItemRecord) :=
  match urls with
  | [] => ret video_info_list
  | url :: rest =>
      (video_info <- lift (get_video_info url) ;;
       match video_info with
       | Some vi =>
           let cleaned_url := clean_url url in
           let video_info_list :=
             (video_info_list ++ [{| Number := number; info := vi; URL := cleaned_url |}])%list in
           (if (number mod 10 =? 0)%Z
            then print ("Finished processing video number: " ++ Py.str_of_int number)
            else ret tt) ;;;
           scrape_loop (number + 1) rest video_info_list
       | None => scrape_loop (number + 1) rest video_info_list
       end)%py
  end.

Definition scrape_and_write_video_info (input_file output_file : string) : M World unit :=
  (urls <- read_urls_from_csv input_file ;;
   video_info_list <- scrape_loop 1 urls [] ;;
   write_video_info_to_csv video_info_list output_file fieldnames)%py.

End Scraping.

End Collector.

(** ** The batch transcriber: [2-openai_transcript_generator.py] *)

Module Transcriber.

(** A cell of the table as [pandas.read_csv] leaves it in a column of
    text: a string, or [None] for the missing value (NaN). *)
Definition cell : Type := option string.

(** The table: the column names and the rows, which [read_csv] labels
    with the range index 0, 1, 2, ... *)
Record DataFrame : Type := {
  columns : list string;
  rows : list (list cell)
}.

(** [df[name]] once [name in df.columns] is known: the cells of that
    column, top to bottom (a short row holds a missing value there). *)
Definition column (df : DataFrame) (name : string) : list cell :=
  match list_find (fun c => c = name) (columns df) with
  | Some (j, _) => map (fun row => default None (row !! j)) (rows df)
  | None => []
  end.

(** [pd.isnull]. *)
Definition isnull (c : cell) : bool :=
  match c with
  | None => true
  | Some _ => false
  end.

(** [df[df[col] == v].index]: the labels of the rows whose cell equals
    the string [v], in order (a missing value equals nothing). *)
Fixpoint matching_index (index : nat) (col : list cell) (v : string) : list nat :=
  match col with
  | [] => []
  | c :: rest =>
      if bool_decide (c = Some v)
      then index :: matching_index (S index) rest v
      else matching_index (S index) rest v
  end.

(** What the run does that can be seen from outside. *)
Inductive event : Type :=
  | Print (line : string)
  | Download (url : string)
  | ExtractInfo (url : string)
  | LoadModel (model_name device : string)
  | Transcribe (file_path : string)
  | WriteFile (name text : string)
  | RemoveFile (name : string).

(** The world of a run: the entries of the working directory (name to
    contents) and the events so far. *)
Record World : Type := {
  files : gmap string string;
  trace : list event
}.

Definition emit (e : event) : M World unit :=
  fun w => (Returned tt, {| files := files w; trace := (trace w ++ [e])%list |}).

Definition print (line : string) : M World unit := emit (Print line).

(** [os.listdir]: the names in the directory, in the order the system
    gives them. *)
Definition os_listdir : M World (list string) :=
  fun w => (Returned (map fst (map_to_list (files w))), w).

(** [open(name, "w")] followed by [file.write(text)]. *)
Definition write_file (name text : string) : M World unit :=
  fun w =>
    (Returned tt,
     {| files := <[name := text]> (files w); trace := (trace w ++ [WriteFile name text])%list |}).

Definition model_sizes : list (string * string) :=
  [("tiny", "tiny.en"); ("base", "base.en"); ("small", "small.en");
   ("medium", "medium.en"); ("large", "large.en")].

(** [model_sizes.get(model_size)]. *)
Definition model_sizes_get (model_size : string) : option string :=
  snd <$> List.find (fun kv => String.eqb (fst kv) model_size) model_sizes.

(** The options handed to the downloader. *)
Record YdlOpts : Type := {
  format : string;
  writedescription : bool;
  quiet : bool;
  preferredcodec : string;
  preferredquality : string;
  outtmpl : string
}.

Definition newline : string := String (ascii_of_nat 10) EmptyString.

(** The [ydl_opts] dictionary of [get_OpenAI_transcript]. *)
Definition ydl_opts (video_id : string) (fetch_description hide_verbose : bool) : YdlOpts :=
  {| format := "bestaudio/best";
     writedescription := fetch_description;
     quiet := hide_verbose;
     preferredcodec := "mp3";
     preferredquality := "192";
     outtmpl := "%(title)s " ++ video_id ++ ".%(ext)s" |}.

Section Collaborators.

(** The libraries the script drives, taken as given: the downloader
    ([download] changes the directory and may raise; [extract_info] with
    [prepare_filename] names the downloaded file), the device probe, the
    speech model and the CSV reader. *)
Variable ydl_download : YdlOpts -> string -> gmap string string -> option exn * gmap string string.
Variable ydl_prepare_filename : YdlOpts -> string -> outcome string.
Variable cuda_is_available : bool.
Variable Model : Type.
Variable whisper_load_model : string -> string -> outcome Model.
Variable model_transcribe : Model -> string -> gmap string string -> outcome string.
Variable pd_read_csv : string -> gmap string string -> outcome DataFrame.

(** The operating system, for [os.remove]: the exception it raises on
    an entry it refuses to remove (a directory, a file that may not be
    deleted), [None] for an entry it removes. *)
Variable os_remove_error : string -> option exn.

Definition device : string := if cuda_is_available then "cuda" else "cpu".

Definition load_model (model_size device : string) : M World Model :=
  match model_sizes_get model_size with
  | Some model_name =>
      (emit (LoadModel model_name device) ;;; lift (whisper_load_model model_name device))%py
  | None =>
      raise (ValueError
        "Invalid model size. Please choose from: 'tiny', 'base', 'small', 'medium', 'large'.")
  end.

(** [ydl.download([url])]: the exception it raised, if any. *)
Definition download (opts : YdlOpts) (url : string) : M World (option exn) :=
  fun w =>
    let '(e, fs) := ydl_download opts url (files w) in
    (Returned e, {| files := fs; trace := (trace w ++ [Download url])%list |}).

Definition prepare_filename (opts : YdlOpts) (url : string) : M World string :=
  (emit (ExtractInfo url) ;;; lift (ydl_prepare_filename opts url))%py.

Definition transcribe (model : Model) (file_path : string) : M World string :=
  (emit (Transcribe file_path) ;;;
   fun w => (model_transcribe model file_path (files w), w))%py.

Definition get_OpenAI_transcript (model_size video_id : string)
    (fetch_description hide_verbose : bool) : M World unit :=
  (names <- os_listdir ;;
   if existsb (fun file_name => Py.contains video_id file_name) names
   then print "Video ID is in at least one file name."
   else
     let ydl_opts := ydl_opts video_id fetch_description hide_verbose in
     let url := "https://www.youtube.com/watch?v=" ++ video_id in
     raised <- download ydl_opts url ;;
     match raised with
     | Some (ExtractorError e) => print ("Error: Age-restricted:  " ++ e)
     | Some (DownloadError e) => print ("Error: Unable to download:  " ++ e)
     | Some e => raise e
     | None =>
         file_path <- prepare_filename ydl_opts url ;;
         let file_path := Py.replace ".webm" ".mp3" file_path in
         let file_path := Py.replace ".m4a" ".mp3" file_path in
         model <- load_model model_size device ;;
         result_text <- transcribe model file_path ;;
         let text := Py.strip (Py.replace newline " " result_text) in
         let name := Py.replace ".mp3" ".txt" file_path in
         write_file name text ;;;
         print ("############# Done video: " ++ name ++ " #############")
     end)%py.

(** The [for index, row in df.iterrows()] loop over the identifier
    column, from the row labelled [index] on; [has_column] is the test
    ["Video ID" in row], and [option_list c] is the value appended for
    a cell that is not missing. *)
Fixpoint iterrows_loop (has_column : bool) (start_index index : nat) (col : list cell)
    (ids_to_transcribe : list string) : M World (list string) :=
  match col with
  | [] => ret ids_to_transcribe
  | c :: rest =>
      if bool_decide (start_index <= index)
      then
        if has_column && negb (isnull c)
        then iterrows_loop has_column start_index (S index) rest
               (ids_to_transcribe ++ option_list c)%list
        else (print ("Warning: No 'Video ID' found in row " ++ Py.str_of_int (Z.of_nat index)) ;;;
              iterrows_loop has_column start_index (S index) rest ids_to_transcribe)%py
      else iterrows_loop has_column start_index (S index) rest ids_to_transcribe
  end.

Definition videos_to_transcribe (df : DataFrame) (start_video_id : string)
    : M World (list string) :=
  if bool_decide ("Video ID" ∈ columns df)
  then
    let col := column df "Video ID" in
    (start_index <-
       (if negb (String.eqb start_video_id "") && negb (bool_decide (col = []))
        then
          match matching_index 0 col start_video_id with
          | i :: _ => ret i
          | [] => raise (IndexError "index 0 is out of bounds for axis 0 with size 0")
          end
        else ret 0%nat) ;;
     iterrows_loop true start_index 0 col [])%py
  else
    (print "Error: 'Video ID' column not found in DataFrame." ;;; ret [])%py.

(** [os.remove] of a name in the working directory; a refusal leaves
    the directory as it is. *)
Definition os_remove (name : string) : M World unit :=
  fun w =>
    match files w !! name with
    | Some _ =>
        match os_remove_error name with
        | Some e => (Raised e, w)
        | None =>
            (Returned tt,
             {| files := delete name (files w);
                trace := (trace w ++ [RemoveFile name])%list |})
        end
    | None => (Raised (OtherError "FileNotFoundError"), w)
    end.

(** The [for mp3_file in mp3_files] loop. *)
Fixpoint remove_loop (mp3_files : list string) : M World unit :=
  match mp3_files with
  | [] => ret tt
  | mp3_file :: rest =>
      (os_remove mp3_file ;;;
       print ("File '" ++ mp3_file ++ "' has been removed.") ;;;
       remove_loop rest)%py
  end.

(** [delete_mp3_files] on the working directory. *)
Definition delete_mp3_files : M World unit :=
  (files_in_dir <- os_listdir ;;
   let mp3_files := filter (fun file => Py.endswith file ".mp3") files_in_dir in
   remove_loop mp3_files)%py.

(** The module-level configuration values. *)
Record Config : Type := {
  videos_info_file : string;
  model_size : string;
  fetch_description : bool;
  hide_verbose : bool;
  start_video_id : string
}.

(** The [for video_id in ids_to_transcribe] loop. *)
Fixpoint transcribe_loop (cfg : Config) (ids_to_transcribe : list string) : M World unit :=
  match ids_to_transcribe with
  | [] => ret tt
  | video_id :: rest =>
      (print ("Started with video ID: " ++ video_id) ;;;
       get_OpenAI_transcript (model_size cfg) video_id (fetch_description cfg) (hide_verbose cfg) ;;;
       transcribe_loop cfg rest)%py
  end.

(** The script body under [if __name__ == "__main__"]. *)
Definition main (cfg : Config) : M World unit :=
  (print ("Device =  " ++ device) ;;;
   videos_info_df <- (fun w => (pd_read_csv (videos_info_file cfg) (files w), w)) ;;
   ids_to_transcribe <- videos_to_transcribe videos_info_df (start_video_id cfg) ;;
   transcribe_loop cfg ids_to_transcribe ;;;
   delete_mp3_files)%py.

End Collaborators.

End Transcriber.

(** * The vocabulary of the properties *)

(** ** Traces and files of the transcriber *)

Section BatchVocabulary.

Import Transcriber.

(** The warnings printed for the missing cells of [col], whose first
    row is labelled [index]. *)
Fixpoint missing_warnings (index : nat) (col : list cell) : list event :=
  match col with
  | [] => []
  | c :: rest =>
      (if isnull c
       then [Print ("Warning: No 'Video ID' found in row " ++ Py.str_of_int (Z.of_nat index))]
       else []) ++ missing_warnings (S index) rest
  end%list.

Definition log (w : World) (evs : list event) : World :=
  {| files := files w; trace := (trace w ++ evs)%list |}.

Definition is_removal (e : event) : bool :=
  match e with
  | RemoveFile _ => true
  | _ => false
  end.

Definition no_removal (evs : list event) : bool := forallb (fun e => negb (is_removal e)) evs.

(** What [delete_mp3_files] leaves in the trace for the files it removes. *)
Definition removal_events (mp3_files : list string) : list event :=
  flat_map (fun mp3_file =>
              [RemoveFile mp3_file; Print ("File '" ++ mp3_file ++ "' has been removed.")])
           mp3_files.

(** The names [os.listdir] returns, in its order. *)
Definition listing (w : World) : list string := map fst (map_to_list (files w)).

(** [os.listdir] filtered as in [delete_mp3_files]. *)
Definition mp3_files_of (w : World) : list string :=
  filter (fun file => Py.endswith file ".mp3") (map fst (map_to_list (files w))).

(** [name] ends in [extension]: it is some stem followed by it. *)
Definition has_extension (name extension : string) : Prop :=
  exists stem, name = stem ++ extension.

(** The names of [mp3_files] up to the first one that the system
    refuses to remove, and the exception of that refusal. *)
Fixpoint removed_before_refusal (os_remove_error : string -> option exn)
    (mp3_files : list string) : list string :=
  match mp3_files with
  | [] => []
  | mp3_file :: rest =>
      match os_remove_error mp3_file with
      | Some _ => []
      | None => mp3_file :: removed_before_refusal os_remove_error rest
      end
  end.

Fixpoint first_refusal (os_remove_error : string -> option exn)
    (mp3_files : list string) : option exn :=
  match mp3_files with
  | [] => None
  | mp3_file :: rest =>
      match os_remove_error mp3_file with
      | Some e => Some e
      | None => first_refusal os_remove_error rest
      end
  end.

(** How the cleanup ends on [mp3_files]. *)
Definition cleanup_outcome (os_remove_error : string -> option exn)
    (mp3_files : list string) : outcome unit :=
  match first_refusal os_remove_error mp3_files with
  | Some e => Raised e
  | None => Returned tt
  end.

Definition device_notice (cuda_is_available : bool) : event :=
  Print ("Device =  " ++ device cuda_is_available).

Definition missing_column_notice : event :=
  Print "Error: 'Video ID' column not found in DataFrame.".

End BatchVocabulary.

(** ** Characters and numerals *)

Section StringVocabulary.

(** Every character of [s] passes the test [P]. *)
Fixpoint string_forall (P : ascii -> bool) (s : string) : bool :=
  match s with
  | EmptyString => true
  | String c s' => P c && string_forall P s'
  end.

Definition is_digit (c : ascii) : bool :=
  match Py.digit_val c with
  | Some _ => true
  | None => false
  end.

Definition differs_from (c : ascii) (x : ascii) : bool := negb (Ascii.eqb x c).

(** The value of the digits [d] read after the value [acc]. *)
Fixpoint uint_value (d : Decimal.uint) (acc : Z) : Z :=
  match d with
  | Decimal.Nil => acc
  | Decimal.D0 d => uint_value d (10 * acc + 0)
  | Decimal.D1 d => uint_value d (10 * acc + 1)
  | Decimal.D2 d => uint_value d (10 * acc + 2)
  | Decimal.D3 d => uint_value d (10 * acc + 3)
  | Decimal.D4 d => uint_value d (10 * acc + 4)
  | Decimal.D5 d => uint_value d (10 * acc + 5)
  | Decimal.D6 d => uint_value d (10 * acc + 6)
  | Decimal.D7 d => uint_value d (10 * acc + 7)
  | Decimal.D8 d => uint_value d (10 * acc + 8)
  | Decimal.D9 d => uint_value d (10 * acc + 9)
  end.

(** A character of a video identifier: a letter, a digit, [-] or [_]. *)
Definition id_char (c : ascii) : bool :=
  let n := nat_of_ascii c in
  (Nat.leb 48 n && Nat.leb n 57) || (Nat.leb 65 n && Nat.leb n 90)
  || (Nat.leb 97 n && Nat.leb n 122) || Nat.eqb n 45 || Nat.eqb n 95.

(** The short link and the long form of the video [video_id]. *)
Definition short_form (video_id : string) : string := "https://youtu.be/" ++ video_id.

Definition long_form (video_id : string) : string :=
  "https://www.youtube.com/watch?v=" ++ video_id.

End StringVocabulary.

(** ** Durations as the specification writes them *)

Section DurationVocabulary.

Import Collector.

(** The character of a decimal digit. *)
Definition digit_char (z : Z) : ascii := ascii_of_nat (48 + Z.to_nat z).

(** [MM] or [SS]: exactly two decimal digits. *)
Definition two_digits (z : Z) : string :=
  String (digit_char (z / 10)) (String (digit_char (z mod 10)) "").

(** The display the specification asks for: [H:MM:SS] when there are
    hours, [M:SS] otherwise. *)
Definition display (h m s : Z) : string :=
  if (0 <? h)%Z
  then Py.str_of_int h ++ ":" ++ two_digits m ++ ":" ++ two_digits s
  else Py.str_of_int m ++ ":" ++ two_digits s.

(** How the page writes a duration of [h] hours, [m] minutes and [s]
    seconds: whole minutes, then seconds. *)
Definition duration_content (h m s : Z) : string :=
  "PT" ++ Py.str_of_int (60 * h + m) ++ "M" ++ Py.str_of_int s ++ "S".

Definition soup_with_duration (content : string) : Soup :=
  {| itemprop_identifier := None;
     itemprop_name := None;
     itemprop_datePublished := None;
     itemprop_duration := Some (Some content) |}.

End DurationVocabulary.

(** ** Pages and progress notices of the collector *)

Section CollectionVocabulary.

Import Collector.

Context (fetch : string -> fetch_result) (strptime_strftime : string -> option string).

Local Abbreviation get_video_info := (get_video_info fetch strptime_strftime).

(** One of the four [meta] tags the collector needs is not on the page. *)
Definition field_absent (soup : Soup) : Prop :=
  itemprop_identifier soup = None \/ itemprop_name soup = None \/
  itemprop_datePublished soup = None \/ itemprop_duration soup = None.

Definition progress_notice (count : Z) : string :=
  "Finished processing video number: " ++ Py.str_of_int count.

(** The notices the code prints: one for an item that yields a record
    and whose sequence number in the input is a multiple of ten, up to
    the first item that raises, where the loop ends. *)
Fixpoint notices_by_sequence_number (number : Z) (urls : list string) : list string :=
  match urls with
  | [] => []
  | url :: rest =>
      match get_video_info url with
      | Returned (Some _) =>
          (if (number mod 10 =? 0)%Z then [progress_notice number] else [])
          ++ notices_by_sequence_number (number + 1) rest
      | Returned None => notices_by_sequence_number (number + 1) rest
      | Raised _ => []
      end
  end%list.

(** The notices the claim describes: after an item that yields a
    record, when the number of records so far is a multiple of ten;
    [successes] records came before [urls]. *)
Fixpoint notices_by_success_count (successes : Z) (urls : list string) : list string :=
  match urls with
  | [] => []
  | url :: rest =>
      match get_video_info url with
      | Returned (Some _) =>
          (if ((successes + 1) mod 10 =? 0)%Z then [progress_notice (successes + 1)] else [])
          ++ notices_by_success_count (successes + 1) rest
      | _ => notices_by_success_count successes rest
      end
  end%list.

(** What the loop adds to the list, told by position: the record of
    [r] was made from the URL at offset [Number r - number]. *)
Definition made_from (number : Z) (urls : list string) (r : ItemRecord) : Prop :=
  (number <= Number r)%Z /\
  exists url,
    urls !! Z.to_nat (Number r - number) = Some url /\
    URL r = clean_url url /\
    get_video_info url = Returned (Some (info r)).

End CollectionVocabulary.

(** ** Transcripts *)

Section TranscriptVocabulary.

Definition newline_char : ascii := ascii_of_nat 10.

(** A text on one line, without white space around it. *)
Definition tidy (text : string) : Prop :=
  string_forall (differs_from newline_char) text = true /\ Py.strip text = text.

End TranscriptVocabulary.

(** * Sample runs *)

(** ** A sample run of the transcriber *)

Section SampleBatch.

Import Transcriber.

(** A table as the collector writes it; the third row has lost its
    identifier. *)
Definition sample_table : DataFrame :=
  {| columns := ["Number"; "Video ID"; "URL"];
     rows := [[Some "1"; Some "aaaaaaaaaaa"; Some "https://www.youtube.com/watch?v=aaaaaaaaaaa"];
              [Some "2"; Some "bbbbbbbbbbb"; Some "https://www.youtube.com/watch?v=bbbbbbbbbbb"];
              [Some "3"; None; Some "https://www.youtube.com/watch?v="];
              [Some "4"; Some "ccccccccccc"; Some "https://www.youtube.com/watch?v=ccccccccccc"]] |}.

(** A table that lacks the identifier column. *)
Definition sample_table_no_id : DataFrame :=
  {| columns := ["Number"; "URL"];
     rows := [[Some "1"; Some "https://www.youtube.com/watch?v=aaaaaaaaaaa"]] |}.

(** A working directory with the transcript of the first video and an
    audio file left by somebody else. *)
Definition sample_world : World :=
  {| files := <["Talk aaaaaaaaaaa.txt" := "first talk"]> (<["old.mp3" := "audio"]> ∅);
     trace := [] |}.

(** Stand-ins for the libraries: the downloader stores the audio of the
    video under its title and identifier, the model hears two lines. *)
Definition sample_download (opts : YdlOpts) (url : string) (fs : gmap string string)
    : option exn * gmap string string :=
  (None, <["Talk " ++ Py.slice_from 32 url ++ ".mp3" := "audio"]> fs).

Definition sample_prepare_filename (opts : YdlOpts) (url : string) : outcome string :=
  Returned ("Talk " ++ Py.slice_from 32 url ++ ".webm").

Definition sample_load_model (model_name device : string) : outcome unit := Returned tt.

Definition sample_transcribe (model : unit) (file_path : string) (fs : gmap string string)
    : outcome string :=
  Returned (" hello" ++ newline ++ "world ").

Definition sample_config (start : string) : Config :=
  {| videos_info_file := "videos_info.csv";
     model_size := "medium";
     fetch_description := false;
     hide_verbose := true;
     start_video_id := start |}.

(** A system that removes whatever it is asked to. *)
Definition sample_remove_error (name : string) : option exn := None.

Definition sample_main (df : DataFrame) (start : string) : M World unit :=
  main sample_download sample_prepare_filename false unit sample_load_model
    sample_transcribe (fun _ _ => Returned df) sample_remove_error (sample_config start).

(** The world after the item loop of the sample run. *)
Definition sample_after_items : World :=
  (transcribe_loop sample_download sample_prepare_filename false unit sample_load_model
     sample_transcribe (sample_config "")
     ["aaaaaaaaaaa"; "bbbbbbbbbbb"; "ccccccccccc"]
     (log sample_world [Print "Device =  cpu";
                        Print "Warning: No 'Video ID' found in row 2"])).2.

End SampleBatch.

(** ** A sample run of the collector *)

Section SampleCollection.

Import Collector.

Definition sample_soup (video_id : string) : Soup :=
  {| itemprop_identifier := Some (Some video_id);
     itemprop_name := Some (Some ("Talk " ++ video_id));
     itemprop_datePublished := Some (Some "2020-01-02T03:04:05+00:00");
     itemprop_duration := Some (Some "PT5M9S") |}.

(** The same page without its title tag. *)
Definition sample_soup_untitled (video_id : string) : Soup :=
  {| itemprop_identifier := Some (Some video_id);
     itemprop_name := None;
     itemprop_datePublished := Some (Some "2020-01-02T03:04:05+00:00");
     itemprop_duration := Some (Some "PT5M9S") |}.

Definition untitled_url : string := "https://www.youtube.com/watch?v=untitled001".

(** A stand-in for the site: every video has a full page, except the
    untitled one. *)
Definition sample_fetch (url : string) : fetch_result :=
  let video_id := Py.first_piece (Py.split "&" (Py.last_piece (Py.split "v=" url))) in
  if String.eqb url untitled_url
  then Fetched (sample_soup_untitled video_id)
  else Fetched (sample_soup video_id).

Definition sample_strptime_strftime (date_published : string) : option string :=
  if String.eqb date_published "2020-01-02T03:04:05+00:00" then Some "02-01-2020" else None.

(** Ten valid URLs; the first one has the page without a title. *)
Definition sample_urls : list string :=
  [untitled_url;
   "https://www.youtube.com/watch?v=video000002";
   "https://www.youtube.com/watch?v=video000003";
   "https://www.youtube.com/watch?v=video000004";
   "https://www.youtube.com/watch?v=video000005";
   "https://www.youtube.com/watch?v=video000006";
   "https://www.youtube.com/watch?v=video000007";
   "https://www.youtube.com/watch?v=video000008";
   "https://www.youtube.com/watch?v=video000009";
   "https://www.youtube.com/watch?v=video000010"].

Definition short_link : string := "https://youtu.be/dQw4w9WgXcQ".

(** The long form of the same video, as the site's share button used
    to write it. *)
Definition feature_link : string :=
  "https://www.youtube.com/watch?v=dQw4w9WgXcQ&feature=youtu.be".

Definition empty_world : World := {| csv_files := ∅; stdout := [] |}.

(** Stand-ins for the [csv] module on plain files, without quoting:
    a line is a row, its fields parted by commas (a blank line is the
    empty row), and lines end in a carriage return and a line feed. *)
Definition line_break : string := String (ascii_of_nat 13) (String (ascii_of_nat 10) "").

Definition sample_csv_reader (text : string) : list (list string) :=
  map (fun line => if String.eqb line "" then [] else Py.split "," line)
      (Py.split line_break text).

Definition sample_csv_writerow (fields : list string) : string :=
  String.concat "," fields ++ line_break.

(** A file system on which the empty path cannot be opened. *)
Definition sample_open_append_error (path : string) : option string :=
  if String.eqb path "" then Some "[Errno 2] No such file or directory: ''" else None.

Definition sample_scrape_and_write_video_info (input_file output_file : string)
    : M World unit :=
  scrape_and_write_video_info sample_fetch sample_strptime_strftime sample_csv_reader
    sample_csv_writerow sample_open_append_error input_file output_file.

Definition sample_scrape_loop (urls : list string) : outcome (list ItemRecord) * World :=
  scrape_loop sample_fetch sample_strptime_strftime 1 urls [] empty_world.

(** A long link with a time stamp and a trailing blank. *)
Definition tracked_link : string := "https://www.youtube.com/watch?v=dQw4w9WgXcQ&t=42s ".

(** The page of a clip shorter than a minute, its duration in seconds
    only. *)
Definition sample_soup_seconds_only (video_id : string) : Soup :=
  {| itemprop_identifier := Some (Some video_id);
     itemprop_name := Some (Some ("Clip " ++ video_id));
     itemprop_datePublished := Some (Some "2020-01-02T03:04:05+00:00");
     itemprop_duration := Some (Some "PT45S") |}.

Definition clip_url : string := "https://www.youtube.com/watch?v=clip0000001".

(** The site of [sample_fetch] with that clip added. *)
Definition clip_fetch (url : string) : fetch_result :=
  if String.eqb url clip_url then Fetched (sample_soup_seconds_only "clip0000001")
  else sample_fetch url.

(** A clip whose page has lost its title tag. *)
Definition sample_soup_untitled_clip (video_id : string) : Soup :=
  {| itemprop_identifier := Some (Some video_id);
     itemprop_name := None;
     itemprop_datePublished := Some (Some "2020-01-02T03:04:05+00:00");
     itemprop_duration := Some (Some "PT45S") |}.

Definition untitled_clip_url : string := "https://www.youtube.com/watch?v=clip0000002".

(** The site of [sample_fetch] with that clip added. *)
Definition untitled_clip_fetch (url : string) : fetch_result :=
  if String.eqb url untitled_clip_url
  then Fetched (sample_soup_untitled_clip "clip0000002")
  else sample_fetch url.

(** The record of the second sample video. *)
Definition sample_record : ItemRecord :=
  {| Number := 2;
     info := {| Video_ID := "video000002";
                Video_Title := "Talk video000002";
                Date_Published := "02-01-2020";
                Duration := "5:09";
                Duration_sec := 309 |};
     URL := "https://www.youtube.com/watch?v=video000002" |}.

End SampleCollection.

(** ** Other stand-ins for the downloader *)

Section SampleFailures.

Import Transcriber.

(** A downloader that fails on every video and leaves a partial file. *)
Definition failing_download (opts : YdlOpts) (url : string) (fs : gmap string string)
    : option exn * gmap string string :=
  (Some (DownloadError "ERROR: Video unavailable"), <["partial.part" := "audio"]> fs).

(** A downloader whose audio comes in a container the script does not
    know. *)
Definition opus_prepare_filename (opts : YdlOpts) (url : string) : outcome string :=
  Returned ("Talk " ++ Py.slice_from 32 url ++ ".opus").

(** A system that refuses to remove the audio of the third video. *)
Definition refusing_remove_error (name : string) : option exn :=
  if String.eqb name "Talk ccccccccccc.mp3"
  then Some (OtherError "PermissionError: [Errno 13] Permission denied")
  else None.

Definition refusing_main (df : DataFrame) (start : string) : M World unit :=
  main sample_download sample_prepare_filename false unit sample_load_model
    sample_transcribe (fun _ _ => Returned df) refusing_remove_error (sample_config start).

(** An empty working directory. *)
Definition fresh_world : World := {| files := ∅; trace := [] |}.

(** A table with its header and no row. *)
Definition empty_table : DataFrame :=
  {| columns := ["Number"; "Video ID"; "URL"]; rows := [] |}.

End SampleFailures.

(** * Properties *)

(** ** Resolving the identifiers to process *)

Section Resolution.

Import Transcriber.

Lemma log_nil w : log w [] = w.
Proof. destruct w; unfold log; simpl; by rewrite app_nil_r. Qed.

Lemma log_log w evs evs' : log (log w evs) evs' = log w (evs ++ evs')%list.
Proof. unfold log; simpl; by rewrite app_assoc. Qed.

Lemma iterrows_loop_spec (start_index : nat) (col : list cell) :
  forall (index : nat) (ids : list string) (w : World),
    iterrows_loop true start_index index col ids w =
    (Returned (ids ++ omap id (drop (start_index - index) col))%list,
     log w (missing_warnings (start_index `max` index) (drop (start_index - index) col))).
Proof.
  induction col as [|c rest IH]; intros index ids w; simpl.
  - rewrite drop_nil; simpl. by rewrite app_nil_r, log_nil.
  - case_bool_decide as Hle.
    + replace (start_index - index)%nat with 0%nat by lia.
      replace (start_index `max` index)%nat with index by lia.
      destruct c as [v|]; simpl.
      * rewrite IH.
        replace (start_index - S index)%nat with 0%nat by lia.
        replace (start_index `max` S index)%nat with (S index) by lia.
        simpl. by rewrite <- app_assoc.
      * unfold bind, print, emit; simpl. rewrite IH.
        replace (start_index - S index)%nat with 0%nat by lia.
        replace (start_index `max` S index)%nat with (S index) by lia.
        unfold log; simpl. by rewrite <- app_assoc.
    + rewrite IH.
      replace (start_index - index)%nat with (S (start_index - S index)) by lia.
      replace (start_index `max` S index)%nat with (start_index `max` index)%nat by lia.
      done.
Qed.

Lemma matching_index_first (col : list cell) (v : string) :
  forall (index k : nat),
    col !! k = Some (Some v) ->
    (forall j, (j < k)%nat -> col !! j <> Some (Some v)) ->
    exists others, matching_index index col v = (index + k)%nat :: others.
Proof.
  induction col as [|c rest IH]; intros index k Hk Hfirst; [done|].
  simpl. destruct k as [|k]; simpl in Hk.
  - simplify_eq. rewrite bool_decide_eq_true_2 by done.
    replace (index + 0)%nat with index by lia. eauto.
  - rewrite bool_decide_eq_false_2.
    + destruct (IH (S index) k Hk) as [others ->].
      * intros j Hj. apply (Hfirst (S j)). lia.
      * replace (S index + k)%nat with (index + S k)%nat by lia. eauto.
    + intros ->. by apply (Hfirst 0%nat); [lia|].
Qed.

Lemma matching_index_none (col : list cell) (v : string) :
  forall index : nat,
    (forall c, c ∈ col -> c <> Some v) -> matching_index index col v = [].
Proof.
  induction col as [|c rest IH]; intros index Hno; [done|].
  simpl. rewrite bool_decide_eq_false_2.
  - apply IH. intros c' Hc'. apply Hno. by right.
  - apply Hno. by left.
Qed.

Lemma eqb_empty_false (s : string) : s <> "" -> String.eqb s "" = false.
Proof. intros Hs. by apply String.eqb_neq. Qed.

(** C1. Resume correctness: when the table has the identifier column
    and the start identifier is the identifier of the row labelled [k]
    (its first occurrence), [videos_to_transcribe] returns exactly the
    identifiers of the rows from [k] on, in table order, and nothing of
    the rows before [k]; a row from [k] on whose identifier is missing
    is left out and a warning naming its row is printed. *)
Theorem videos_to_transcribe_resumes (df : DataFrame) (start_video_id : string)
    (k : nat) (w : World) :
  "Video ID" ∈ columns df ->
  start_video_id <> "" ->
  column df "Video ID" !! k = Some (Some start_video_id) ->
  (forall j, (j < k)%nat -> column df "Video ID" !! j <> Some (Some start_video_id)) ->
  videos_to_transcribe df start_video_id w =
  (Returned (omap id (drop k (column df "Video ID"))),
   log w (missing_warnings k (drop k (column df "Video ID")))).
Proof.
  intros Hcol Hstart Hk Hfirst. unfold videos_to_transcribe.
  rewrite bool_decide_eq_true_2 by done.
  rewrite eqb_empty_false by done.
  rewrite bool_decide_eq_false_2 by (intros Hnil; by rewrite Hnil in Hk).
  destruct (matching_index_first _ _ 0%nat k Hk Hfirst) as [others Hm].
  unfold bind; simpl. rewrite Hm. unfold ret.
  rewrite iterrows_loop_spec. simpl.
  replace (k - 0)%nat with k by lia. replace (k `max` 0)%nat with k by lia. done.
Qed.

End Resolution.

(** ** The batch: items, cleanup and the whole run *)

Section Batch.

Import Transcriber.

Context (ydl_download : YdlOpts -> string -> gmap string string -> option exn * gmap string string)
        (ydl_prepare_filename : YdlOpts -> string -> outcome string)
        (cuda_is_available : bool)
        (Model : Type)
        (whisper_load_model : string -> string -> outcome Model)
        (model_transcribe : Model -> string -> gmap string string -> outcome string)
        (pd_read_csv : string -> gmap string string -> outcome DataFrame)
        (os_remove_error : string -> option exn).

Local Abbreviation get_OpenAI_transcript :=
  (get_OpenAI_transcript ydl_download ydl_prepare_filename cuda_is_available Model
     whisper_load_model model_transcribe).
Local Abbreviation transcribe_loop :=
  (transcribe_loop ydl_download ydl_prepare_filename cuda_is_available Model
     whisper_load_model model_transcribe).
Local Abbreviation main :=
  (main ydl_download ydl_prepare_filename cuda_is_available Model
     whisper_load_model model_transcribe pd_read_csv os_remove_error).
Local Abbreviation os_remove := (os_remove os_remove_error).
Local Abbreviation remove_loop := (remove_loop os_remove_error).
Local Abbreviation delete_mp3_files := (delete_mp3_files os_remove_error).
Local Abbreviation removed_before_refusal := (removed_before_refusal os_remove_error).
Local Abbreviation first_refusal := (first_refusal os_remove_error).

Local Abbreviation device_notice := (device_notice cuda_is_available).

Lemma lookup_foldl_delete (l : list string) :
  forall (m : gmap string string) (x : string),
    foldl (fun m n => delete n m) m l !! x = if decide (x ∈ l) then None else m !! x.
Proof.
  induction l as [|n l IH]; intros m x; cbn [foldl].
  - case_decide as Hin; [by apply elem_of_nil in Hin|done].
  - rewrite IH. repeat case_decide; try done.
    + set_solver.
    + destruct (decide (x = n)) as [->|Hne]; [apply lookup_delete_eq|].
      exfalso. by decompose_list_elem_of.
    + apply lookup_delete_ne. set_solver.
Qed.

Lemma endswith_iff (s suffix : string) :
  Py.endswith s suffix = true <-> has_extension s suffix.
Proof.
  unfold has_extension. split.
  - induction s as [|c s IH]; cbn [Py.endswith].
    + rewrite orb_false_r. intros ->%String.eqb_eq. by exists "".
    + intros [->%String.eqb_eq | Hs]%orb_true_iff; [by exists ""|].
      destruct (IH Hs) as [stem ->]. by exists (String c stem).
  - intros [stem ->]. induction stem as [|c stem IH].
    + change ("" ++ suffix) with suffix.
      destruct suffix; cbn [Py.endswith]; by rewrite String.eqb_refl.
    + change (String c stem ++ suffix) with (String c (stem ++ suffix)).
      cbn [Py.endswith]. rewrite IH. apply orb_true_r.
Qed.

Lemma mp3_files_of_spec (w : World) (name : string) :
  name ∈ mp3_files_of w <-> is_Some (files w !! name) /\ has_extension name ".mp3".
Proof.
  unfold mp3_files_of. rewrite list_elem_of_filter, <- endswith_iff. split.
  - intros [Hend Hn]. split; [|by destruct (Py.endswith name ".mp3")].
    apply list_elem_of_fmap in Hn as [[n v] [-> Hn]]. simpl.
    apply elem_of_map_to_list in Hn. eauto.
  - intros [[v Hv] Hend]. split; [by rewrite Hend|].
    apply list_elem_of_fmap. exists (name, v). split; [done|].
    by apply elem_of_map_to_list.
Qed.

Lemma mp3_files_of_NoDup (w : World) : NoDup (mp3_files_of w).
Proof. apply NoDup_filter, NoDup_fst_map_to_list. Qed.

Lemma removed_before_refusal_all (l : list string) :
  first_refusal l = None -> removed_before_refusal l = l.
Proof.
  induction l as [|n l IH]; simpl; [done|].
  destruct (os_remove_error n); [done|]. intros Hl. by rewrite IH.
Qed.

Lemma remove_loop_spec (l : list string) :
  forall w : World,
    NoDup l ->
    (forall n, n ∈ l -> is_Some (files w !! n)) ->
    remove_loop l w =
    (cleanup_outcome os_remove_error l,
     {| files := foldl (fun m n => delete n m) (files w) (removed_before_refusal l);
        trace := (trace w ++ removal_events (removed_before_refusal l))%list |}).
Proof.
  unfold cleanup_outcome.
  induction l as [|n l IH]; intros w Hnd Hin; simpl.
  - unfold ret. destruct w; simpl. by rewrite app_nil_r.
  - apply NoDup_cons in Hnd as [Hn Hnd].
    destruct (Hin n) as [v Hv]; [by left|].
    unfold bind, Transcriber.os_remove at 1. rewrite Hv.
    destruct (os_remove_error n) as [e|].
    + destruct w; simpl. by rewrite app_nil_r.
    + unfold print, emit; simpl.
      rewrite IH; simpl; [|done|].
      * by rewrite <- !app_assoc.
      * intros n' Hn'. rewrite lookup_delete_ne.
        -- apply Hin. by right.
        -- by intros ->.
Qed.

Lemma first_refusal_none (w : World) :
  (forall name,
     is_Some (files w !! name) -> has_extension name ".mp3" -> os_remove_error name = None) ->
  first_refusal (mp3_files_of w) = None.
Proof.
  intros Hfree.
  assert (Forall (fun name => os_remove_error name = None) (mp3_files_of w)) as Hall.
  { apply Forall_forall. intros name [Hname Hext]%mp3_files_of_spec. by apply Hfree. }
  induction Hall as [|name l Hname Hall IH]; simpl; [done|]. by rewrite Hname.
Qed.

(** [delete_mp3_files] removes the names that end in [.mp3], in the
    order of the listing, up to the first one the system refuses, and
    leaves every other entry as it was. *)
Lemma delete_mp3_files_spec (w : World) :
  exists w',
    delete_mp3_files w = (cleanup_outcome os_remove_error (mp3_files_of w), w') /\
    (forall name,
       files w' !! name =
       if decide (name ∈ removed_before_refusal (mp3_files_of w)) then None
       else files w !! name) /\
    trace w' = (trace w ++ removal_events (removed_before_refusal (mp3_files_of w)))%list.
Proof.
  eexists. split; [|split].
  - unfold Transcriber.delete_mp3_files, bind, os_listdir. apply remove_loop_spec.
    + apply mp3_files_of_NoDup.
    + intros n Hn. by apply mp3_files_of_spec in Hn as [Hn _].
  - intros name; simpl. apply lookup_foldl_delete.
  - done.
Qed.

Lemma existsb_listdir (video_id file_name : string) (w : World) :
  is_Some (files w !! file_name) ->
  Py.contains video_id file_name = true ->
  existsb (fun file_name => Py.contains video_id file_name)
          (map fst (map_to_list (files w))) = true.
Proof.
  intros [v Hv] Hc. apply List.existsb_exists. exists file_name. split; [|done].
  apply list_elem_of_In, list_elem_of_fmap. exists (file_name, v). split; [done|].
  by apply elem_of_map_to_list.
Qed.

(** C2. Idempotency by file name: when a name in the working directory
    contains the identifier, [get_OpenAI_transcript] returns at once:
    the only event is the notice it prints (no download, no
    transcription, no write) and every file is as it was. *)
Theorem get_OpenAI_transcript_skips_done (model_size video_id : string)
    (fetch_description hide_verbose : bool) (w : World) (file_name : string) :
  is_Some (files w !! file_name) ->
  Py.contains video_id file_name = true ->
  get_OpenAI_transcript model_size video_id fetch_description hide_verbose w =
  (Returned tt, log w [Print "Video ID is in at least one file name."]).
Proof.
  intros Hfile Hc. unfold Transcriber.get_OpenAI_transcript, bind, os_listdir.
  by rewrite (existsb_listdir _ _ _ Hfile Hc).
Qed.

(** The other two ways an item ends without an exception: the download
    fails with one of the two errors that are handled, or the audio is
    transcribed and the transcript written next to it. *)
Lemma get_OpenAI_transcript_download_failed (model_size video_id : string)
    (fetch_description hide_verbose : bool) (w : World) (e : exn) (msg : string)
    (fs : gmap string string) :
  existsb (fun file_name => Py.contains video_id file_name)
          (map fst (map_to_list (files w))) = false ->
  ydl_download (ydl_opts video_id fetch_description hide_verbose)
    ("https://www.youtube.com/watch?v=" ++ video_id) (files w) = (Some e, fs) ->
  e = ExtractorError msg \/ e = DownloadError msg ->
  exists line,
    get_OpenAI_transcript model_size video_id fetch_description hide_verbose w =
    (Returned tt,
     {| files := fs;
        trace := (trace w ++ [Download ("https://www.youtube.com/watch?v=" ++ video_id);
                              Print line])%list |}).
Proof.
  intros Hnew Hdl He.
  unfold Transcriber.get_OpenAI_transcript, bind, os_listdir, download.
  rewrite Hnew, Hdl. unfold print, emit.
  destruct He as [-> | ->]; simpl; eexists; by rewrite <- app_assoc.
Qed.

Lemma get_OpenAI_transcript_transcribes (model_size video_id : string)
    (fetch_description hide_verbose : bool) (w : World) (fs : gmap string string)
    (path model_name result_text : string) (model : Model) :
  existsb (fun file_name => Py.contains video_id file_name)
          (map fst (map_to_list (files w))) = false ->
  ydl_download (ydl_opts video_id fetch_description hide_verbose)
    ("https://www.youtube.com/watch?v=" ++ video_id) (files w) = (None, fs) ->
  ydl_prepare_filename (ydl_opts video_id fetch_description hide_verbose)
    ("https://www.youtube.com/watch?v=" ++ video_id) = Returned path ->
  model_sizes_get model_size = Some model_name ->
  whisper_load_model model_name (device cuda_is_available) = Returned model ->
  let file_path := Py.replace ".m4a" ".mp3" (Py.replace ".webm" ".mp3" path) in
  let name := Py.replace ".mp3" ".txt" file_path in
  let text := Py.strip (Py.replace newline " " result_text) in
  model_transcribe model file_path fs = Returned result_text ->
  get_OpenAI_transcript model_size video_id fetch_description hide_verbose w =
  (Returned tt,
   {| files := <[name := text]> fs;
      trace := (trace w ++ [Download ("https://www.youtube.com/watch?v=" ++ video_id);
                            ExtractInfo ("https://www.youtube.com/watch?v=" ++ video_id);
                            LoadModel model_name (device cuda_is_available);
                            Transcribe file_path;
                            WriteFile name text;
                            Print ("############# Done video: " ++ name ++ " #############")])%list |}).
Proof.
  intros Hnew Hdl Hpath Hsize Hload file_path name text Htext.
  unfold Transcriber.get_OpenAI_transcript, bind, os_listdir, download, prepare_filename,
    load_model, transcribe, write_file, print, emit, lift, bind.
  rewrite Hnew, Hdl. simpl. rewrite Hpath. rewrite Hsize. simpl. rewrite Hload.
  fold file_path. simpl. rewrite Htext. simpl. by rewrite <- !app_assoc.
Qed.

Ltac trace_extended :=
  simpl; eexists; (split; [rewrite <- ?app_assoc; reflexivity | reflexivity]).

(** Processing one item only adds events, none of which is a removal. *)
Lemma get_OpenAI_transcript_trace (model_size video_id : string)
    (fetch_description hide_verbose : bool) (w : World) :
  exists evs,
    trace (get_OpenAI_transcript model_size video_id fetch_description hide_verbose w).2
    = (trace w ++ evs)%list /\ no_removal evs = true.
Proof.
  unfold Transcriber.get_OpenAI_transcript, bind, os_listdir, download, prepare_filename,
    load_model, transcribe, write_file, print, emit, lift, raise, bind.
  destruct (existsb _ _); [trace_extended|].
  destruct (ydl_download _ _ _) as [[e|] fs]; simpl.
  - destruct e; trace_extended.
  - destruct (ydl_prepare_filename _ _); [|trace_extended].
    destruct (model_sizes_get _); [|trace_extended]. simpl.
    destruct (whisper_load_model _ _); [|trace_extended]. simpl.
    destruct (model_transcribe _ _ _); trace_extended.
Qed.

Lemma transcribe_loop_trace (cfg : Config) (ids : list string) :
  forall w : World,
    exists evs,
      trace (transcribe_loop cfg ids w).2 = (trace w ++ evs)%list /\ no_removal evs = true.
Proof.
  induction ids as [|video_id rest IH]; intros w; simpl.
  - exists []. by rewrite app_nil_r.
  - unfold bind at 1. unfold print, emit. unfold bind at 1.
    destruct (get_OpenAI_transcript_trace (model_size cfg) video_id (fetch_description cfg)
                (hide_verbose cfg)
                {| files := files w;
                   trace := (trace w ++ [Print ("Started with video ID: " ++ video_id)])%list |})
      as (evs1 & Ht1 & Hn1).
    destruct (get_OpenAI_transcript _ _ _ _ _) as [[[]|e] w1]; simpl in Ht1.
    + destruct (IH w1) as (evs2 & Ht2 & Hn2). rewrite Ht2, Ht1.
      eexists. split; [rewrite <- !app_assoc; reflexivity|].
      unfold no_removal in *. simpl. by rewrite forallb_app, Hn1, Hn2.
    + simpl. rewrite Ht1. eexists. split; [rewrite <- !app_assoc; reflexivity|].
      done.
Qed.

Lemma main_unfold (cfg : Config) (w : World) (df : DataFrame) :
  pd_read_csv (videos_info_file cfg) (files w) = Returned df ->
  main cfg w =
  match videos_to_transcribe df (start_video_id cfg) (log w [device_notice]) with
  | (Returned ids, w1) =>
      match transcribe_loop cfg ids w1 with
      | (Returned _, w2) => delete_mp3_files w2
      | (Raised e, w2) => (Raised e, w2)
      end
  | (Raised e, w1) => (Raised e, w1)
  end.
Proof.
  intros Hdf. unfold Transcriber.main, bind, print, emit; simpl. rewrite Hdf.
  reflexivity.
Qed.

Lemma removed_before_refusal_allowed (l : list string) (name : string) :
  name ∈ removed_before_refusal l -> os_remove_error name = None.
Proof.
  induction l as [|n l IH]; simpl; [by intros ?%elem_of_nil|].
  destruct (os_remove_error n) eqn:Hn; [by intros ?%elem_of_nil|].
  intros [-> | Hin]%elem_of_cons; [done|by apply IH].
Qed.

Lemma first_refusal_some (l : list string) (e : exn) :
  first_refusal l = Some e ->
  exists name,
    name ∈ l /\ os_remove_error name = Some e /\ name ∉ removed_before_refusal l.
Proof.
  intros Hl.
  assert (exists name, name ∈ l /\ os_remove_error name = Some e) as (name & Hin & Hname).
  { induction l as [|n l IH]; simpl in Hl; [done|].
    destruct (os_remove_error n) as [e'|] eqn:Hn.
    - injection Hl as ->. exists n. split; [by left|done].
    - destruct (IH Hl) as (name & Hin & Hname). exists name. split; [by right|done]. }
  exists name. repeat split; try done.
  intros Hrem%removed_before_refusal_allowed. congruence.
Qed.

(** C4, as the code has it. End-of-batch cleanup: in a run whose item
    loop went through all the identifiers (each item skipped, failed
    to download or transcribed), [delete_mp3_files] runs after the
    last item and nowhere else.  Its work list [mp3_files] holds
    exactly the entries of the working directory whose name is a stem
    followed by [.mp3], whatever put them there.  They are removed one
    after the other up to the first one the system refuses: the
    entries removed are gone, every other entry is as the items left
    it, the removals are the last events of the run, and no removal
    happened while the items were processed.  Without a refusal the
    run returns and no name ending in [.mp3] is left; a refusal ends
    the run with its exception.  The work list is in the order of the
    directory listing. *)
Theorem cleanup_once_after_all_items (cfg : Config) (w w1 w2 : World)
    (df : DataFrame) (ids : list string) :
  pd_read_csv (videos_info_file cfg) (files w) = Returned df ->
  videos_to_transcribe df (start_video_id cfg) (log w [device_notice]) = (Returned ids, w1) ->
  transcribe_loop cfg ids w1 = (Returned tt, w2) ->
  exists mp3_files w3,
    NoDup mp3_files /\
    sublist mp3_files (listing w2) /\
    (forall name,
       name ∈ mp3_files <-> is_Some (files w2 !! name) /\ has_extension name ".mp3") /\
    main cfg w = (cleanup_outcome os_remove_error mp3_files, w3) /\
    (forall name,
       files w3 !! name =
       if decide (name ∈ removed_before_refusal mp3_files) then None else files w2 !! name) /\
    trace w3 = (trace w2 ++ removal_events (removed_before_refusal mp3_files))%list /\
    (first_refusal mp3_files = None ->
     main cfg w = (Returned tt, w3) /\
     forall name, has_extension name ".mp3" -> files w3 !! name = None) /\
    exists evs, trace w2 = (trace w1 ++ evs)%list /\ no_removal evs = true.
Proof.
  intros Hdf Hids Hloop.
  destruct (delete_mp3_files_spec w2) as (w3 & Hdel & Hfiles & Htrace).
  assert (main cfg w = (cleanup_outcome os_remove_error (mp3_files_of w2), w3)) as Hmain
    by by rewrite (main_unfold _ _ _ Hdf), Hids, Hloop.
  exists (mp3_files_of w2), w3.
  split; [apply mp3_files_of_NoDup|]. split; [apply sublist_filter|].
  split; [apply mp3_files_of_spec|].
  split; [done|]. split; [done|]. split; [done|]. split.
  - intros Hall. split; [by rewrite Hmain; unfold cleanup_outcome; rewrite Hall|].
    intros name Hname. rewrite Hfiles, (removed_before_refusal_all _ Hall).
    case_decide as Hin; [done|].
    destruct (files w2 !! name) as [v|] eqn:Hv; [|done].
    exfalso. apply Hin, mp3_files_of_spec. eauto.
  - destruct (transcribe_loop_trace cfg ids w1) as (evs & Hevs & Hno).
    rewrite Hloop in Hevs. eauto.
Qed.

Lemma column_nonempty (df : DataFrame) :
  "Video ID" ∈ columns df -> rows df <> [] -> column df "Video ID" <> [].
Proof.
  intros Hcol Hrows. unfold column.
  destruct (list_find_elem_of (fun c => c = "Video ID") (columns df) "Video ID")
    as [[j c] ->]; [done..|].
  by destruct (rows df).
Qed.

(** C10. A start identifier that no row carries: with the identifier
    column present, the table not empty and a non-empty start
    identifier equal to no cell of the column,
    [videos_to_transcribe] raises [IndexError] instead of returning a
    list, and the run ends with that exception before any item is
    started (the device notice is all it printed). *)
Theorem unknown_start_identifier_raises (cfg : Config) (w : World) (df : DataFrame) :
  pd_read_csv (videos_info_file cfg) (files w) = Returned df ->
  "Video ID" ∈ columns df ->
  rows df <> [] ->
  start_video_id cfg <> "" ->
  (forall c, c ∈ column df "Video ID" -> c <> Some (start_video_id cfg)) ->
  (forall w', videos_to_transcribe df (start_video_id cfg) w' =
              (Raised (IndexError "index 0 is out of bounds for axis 0 with size 0"), w')) /\
  main cfg w =
  (Raised (IndexError "index 0 is out of bounds for axis 0 with size 0"), log w [device_notice]).
Proof.
  intros Hdf Hcol Hrows Hstart Hno.
  assert (forall w', videos_to_transcribe df (start_video_id cfg) w' =
            (Raised (IndexError "index 0 is out of bounds for axis 0 with size 0"), w'))
    as Hraise.
  { intros w'. unfold videos_to_transcribe.
    rewrite bool_decide_eq_true_2 by done.
    rewrite eqb_empty_false by done.
    rewrite bool_decide_eq_false_2 by by apply column_nonempty.
    unfold bind; simpl. by rewrite matching_index_none. }
  split; [done|]. by rewrite (main_unfold _ _ _ Hdf), Hraise.
Qed.

(** C3, as the code has it. A table without the identifier column is
    not fatal: [videos_to_transcribe] prints an error and returns the
    empty list whatever the start identifier, so no item is processed,
    and the run goes on to the end-of-batch cleanup and ends as the
    cleanup ends: it returns when the system refuses none of the
    removals. *)
Theorem missing_column_processes_nothing (cfg : Config) (w : World) (df : DataFrame) :
  pd_read_csv (videos_info_file cfg) (files w) = Returned df ->
  "Video ID" ∉ columns df ->
  (forall start w', videos_to_transcribe df start w' =
                    (Returned [], log w' [missing_column_notice])) /\
  main cfg w = delete_mp3_files (log w [device_notice; missing_column_notice]) /\
  ((forall name,
      is_Some (files w !! name) -> has_extension name ".mp3" -> os_remove_error name = None) ->
   (main cfg w).1 = Returned tt).
Proof.
  intros Hdf Hcol.
  assert (forall start w', videos_to_transcribe df start w' =
            (Returned [], log w' [missing_column_notice])) as Hempty.
  { intros start w'. unfold videos_to_transcribe.
    by rewrite bool_decide_eq_false_2. }
  assert (main cfg w = delete_mp3_files (log w [device_notice; missing_column_notice]))
    as Hmain.
  { rewrite (main_unfold _ _ _ Hdf), Hempty. simpl. unfold ret. by rewrite log_log. }
  repeat split; try done.
  intros Hfree. rewrite Hmain.
  destruct (delete_mp3_files_spec (log w [device_notice; missing_column_notice]))
    as (w3 & -> & _). simpl.
  unfold cleanup_outcome. by rewrite first_refusal_none.
Qed.

End Batch.

(** ** The sample run of the transcriber *)

Section SampleBatchFacts.

Import Transcriber.

Lemma videos_to_transcribe_resumes_witness :
  videos_to_transcribe sample_table "bbbbbbbbbbb" sample_world =
  (Returned ["bbbbbbbbbbb"; "ccccccccccc"],
   log sample_world [Print "Warning: No 'Video ID' found in row 2"]).
Proof.
  apply (videos_to_transcribe_resumes sample_table "bbbbbbbbbbb" 1 sample_world).
  - apply (bool_decide_unpack _). vm_compute. exact I.
  - discriminate.
  - reflexivity.
  - intros [|j] Hj; [simpl; discriminate | lia].
Defined.

Lemma get_OpenAI_transcript_skips_done_witness :
  get_OpenAI_transcript sample_download sample_prepare_filename false unit
    sample_load_model sample_transcribe "medium" "aaaaaaaaaaa" false true sample_world =
  (Returned tt, log sample_world [Print "Video ID is in at least one file name."]).
Proof.
  apply (get_OpenAI_transcript_skips_done sample_download sample_prepare_filename false unit
           sample_load_model sample_transcribe "medium" "aaaaaaaaaaa" false true
           sample_world "Talk aaaaaaaaaaa.txt").
  - exists "first talk". vm_compute. reflexivity.
  - vm_compute. reflexivity.
Defined.

Lemma cleanup_once_after_all_items_witness :
  exists mp3_files w3,
    NoDup mp3_files /\
    sublist mp3_files (listing sample_after_items) /\
    (forall name,
       name ∈ mp3_files <->
       is_Some (files sample_after_items !! name) /\ has_extension name ".mp3") /\
    sample_main sample_table "" sample_world =
      (cleanup_outcome sample_remove_error mp3_files, w3) /\
    (forall name,
       files w3 !! name =
       if decide (name ∈ removed_before_refusal sample_remove_error mp3_files) then None
       else files sample_after_items !! name) /\
    trace w3 =
      (trace sample_after_items ++
       removal_events (removed_before_refusal sample_remove_error mp3_files))%list /\
    (first_refusal sample_remove_error mp3_files = None ->
     sample_main sample_table "" sample_world = (Returned tt, w3) /\
     forall name, has_extension name ".mp3" -> files w3 !! name = None) /\
    exists evs,
      trace sample_after_items =
      ([Print "Device =  cpu"; Print "Warning: No 'Video ID' found in row 2"] ++ evs)%list /\
      no_removal evs = true.
Proof.
  apply (cleanup_once_after_all_items sample_download sample_prepare_filename false unit
           sample_load_model sample_transcribe (fun _ _ => Returned sample_table)
           sample_remove_error (sample_config "") sample_world
           (log sample_world [Print "Device =  cpu";
                              Print "Warning: No 'Video ID' found in row 2"])
           sample_after_items sample_table
           ["aaaaaaaaaaa"; "bbbbbbbbbbb"; "ccccccccccc"]).
  - reflexivity.
  - vm_compute. reflexivity.
  - vm_compute. reflexivity.
Defined.

(** C4, as stated, fails: the items of the sample run are all
    processed, yet with an audio file that the system refuses to
    remove the run ends with that exception; one audio file was
    removed before, the refused one and the one listed after it are
    still in the working directory. *)
Lemma refused_removal_stops_cleanup :
  transcribe_loop sample_download sample_prepare_filename false unit sample_load_model
    sample_transcribe (sample_config "") ["aaaaaaaaaaa"; "bbbbbbbbbbb"; "ccccccccccc"]
    (log sample_world [Print "Device =  cpu"; Print "Warning: No 'Video ID' found in row 2"])
  = (Returned tt, sample_after_items) /\
  (refusing_main sample_table "" sample_world).1 =
    Raised (OtherError "PermissionError: [Errno 13] Permission denied") /\
  files (refusing_main sample_table "" sample_world).2 =
    <["Talk bbbbbbbbbbb.mp3" := "audio"]>
      (<["Talk ccccccccccc.mp3" := "audio"]>
         (delete "old.mp3" (files sample_after_items))) /\
  files (refusing_main sample_table "" sample_world).2 !! "Talk bbbbbbbbbbb.mp3" =
    Some "audio" /\
  trace (refusing_main sample_table "" sample_world).2 =
    (trace sample_after_items ++
     [RemoveFile "old.mp3"; Print "File 'old.mp3' has been removed."])%list.
Proof.
  repeat split; vm_compute; reflexivity.
Qed.

Lemma unknown_start_identifier_raises_witness :
  (forall w', videos_to_transcribe sample_table "zzzzzzzzzzz" w' =
              (Raised (IndexError "index 0 is out of bounds for axis 0 with size 0"), w')) /\
  sample_main sample_table "zzzzzzzzzzz" sample_world =
  (Raised (IndexError "index 0 is out of bounds for axis 0 with size 0"),
   log sample_world [Print "Device =  cpu"]).
Proof.
  apply (unknown_start_identifier_raises sample_download sample_prepare_filename false unit
           sample_load_model sample_transcribe (fun _ _ => Returned sample_table)
           sample_remove_error
           (sample_config "zzzzzzzzzzz") sample_world sample_table).
  - reflexivity.
  - apply (bool_decide_unpack _). vm_compute. exact I.
  - discriminate.
  - discriminate.
  - intros c Hc. apply (bool_decide_unpack _).
    revert c Hc. apply Forall_forall.
    apply (bool_decide_unpack _). vm_compute. exact I.
Defined.

Lemma missing_column_processes_nothing_witness :
  (forall start w', videos_to_transcribe sample_table_no_id start w' =
                    (Returned [], log w' [missing_column_notice])) /\
  sample_main sample_table_no_id "" sample_world =
  delete_mp3_files sample_remove_error
    (log sample_world [device_notice false; missing_column_notice]) /\
  ((forall name,
      is_Some (files sample_world !! name) -> has_extension name ".mp3" ->
      sample_remove_error name = None) ->
   (sample_main sample_table_no_id "" sample_world).1 = Returned tt).
Proof.
  apply (missing_column_processes_nothing sample_download sample_prepare_filename false unit
           sample_load_model sample_transcribe (fun _ _ => Returned sample_table_no_id)
           sample_remove_error (sample_config "") sample_world sample_table_no_id).
  - reflexivity.
  - apply (bool_decide_unpack _). vm_compute. exact I.
Defined.

(** C3, as stated, fails: on a table without the identifier column
    the run does not end with an error.  It returns normally, and it
    went past the resolution of the identifiers: the cleanup removed an
    audio file. *)
Lemma missing_column_run_is_not_fatal :
  ("Video ID" ∉ columns sample_table_no_id) /\
  (sample_main sample_table_no_id "" sample_world).1 = Returned tt /\
  trace (sample_main sample_table_no_id "" sample_world).2 =
  [Print "Device =  cpu";
   Print "Error: 'Video ID' column not found in DataFrame.";
   RemoveFile "old.mp3";
   Print "File 'old.mp3' has been removed."].
Proof.
  split; [|split].
  - apply (bool_decide_unpack _). vm_compute. exact I.
  - vm_compute. reflexivity.
  - vm_compute. reflexivity.
Qed.

End SampleBatchFacts.

(** ** Strings: splitting, stripping and decimal numerals *)

Section Strings.

Lemma string_app_cons (x : ascii) (a b : string) : String x a ++ b = String x (a ++ b).
Proof. reflexivity. Qed.

Lemma string_app_nil_l (b : string) : "" ++ b = b.
Proof. reflexivity. Qed.

Lemma string_app_assoc (a b c : string) : (a ++ b) ++ c = a ++ (b ++ c).
Proof.
  induction a as [|x a IH]; [done|].
  rewrite !string_app_cons. by f_equal.
Qed.

Lemma string_app_nil_r (a : string) : a ++ "" = a.
Proof.
  induction a as [|x a IH]; [done|].
  rewrite string_app_cons. by f_equal.
Qed.

Lemma string_forall_app (P : ascii -> bool) (a b : string) :
  string_forall P (a ++ b) = string_forall P a && string_forall P b.
Proof.
  induction a as [|x a IH]; [done|].
  rewrite string_app_cons. simpl. rewrite <- andb_assoc. by f_equal.
Qed.

Lemma string_forall_mono (P Q : ascii -> bool) (s : string) :
  (forall c, P c = true -> Q c = true) ->
  string_forall P s = true -> string_forall Q s = true.
Proof.
  intros HPQ. induction s as [|c s IH]; simpl; [done|].
  intros [Hc Hs]%andb_true_iff. rewrite (HPQ c Hc). by apply IH.
Qed.

Lemma prefix_char (c x : ascii) (s : string) :
  String.prefix (String c "") (String x s) = Ascii.eqb x c.
Proof.
  simpl. destruct (ascii_dec c x) as [->|Hne].
  - rewrite Ascii.eqb_refl. by destruct s.
  - symmetry. apply Ascii.eqb_neq. congruence.
Qed.

(** Splitting at a one-character separator: the piece before its first
    occurrence, then the split of the rest. *)
Lemma split_scan_char (c : ascii) (a b : string) :
  forall cur : string,
    string_forall (differs_from c) a = true ->
    Py.split_scan (String c "") (a ++ String c b) 0 cur =
    (cur ++ a) :: Py.split_scan (String c "") b 0 "".
Proof.
  induction a as [|x a IH]; intros cur Hfree.
  - rewrite string_app_nil_l. cbn [Py.split_scan].
    rewrite prefix_char, Ascii.eqb_refl. by rewrite string_app_nil_r.
  - simpl in Hfree. apply andb_true_iff in Hfree as [Hx Hfree].
    rewrite string_app_cons. cbn [Py.split_scan]. rewrite prefix_char.
    unfold differs_from in Hx. apply negb_true_iff in Hx. rewrite Hx.
    rewrite IH by done. by rewrite string_app_assoc.
Qed.

Lemma split_scan_free (c : ascii) (b : string) :
  forall cur : string,
    string_forall (differs_from c) b = true ->
    Py.split_scan (String c "") b 0 cur = [cur ++ b].
Proof.
  induction b as [|x b IH]; intros cur Hfree.
  - simpl. by rewrite string_app_nil_r.
  - simpl in Hfree. apply andb_true_iff in Hfree as [Hx Hfree].
    cbn [Py.split_scan]. rewrite prefix_char.
    unfold differs_from in Hx. apply negb_true_iff in Hx. rewrite Hx.
    rewrite IH by done. by rewrite string_app_assoc.
Qed.

Lemma lstrip_first (c : ascii) (s : string) :
  Py.isspace c = false -> Py.lstrip (String c s) = String c s.
Proof. intros Hc. simpl. by rewrite Hc. Qed.

Lemma rstrip_no_space (s : string) :
  string_forall (fun c => negb (Py.isspace c)) s = true -> Py.rstrip s = s.
Proof.
  induction s as [|c s IH]; simpl; [done|].
  intros [Hc Hs]%andb_true_iff. rewrite IH by done.
  apply negb_true_iff in Hc. rewrite Hc. by destruct s.
Qed.

Lemma digits_of_uint (d : Decimal.uint) :
  string_forall is_digit (NilEmpty.string_of_uint d) = true.
Proof. induction d; simpl; done. Qed.

Lemma is_digit_cases (c : ascii) :
  is_digit c = true ->
  Py.isspace c = false /\ c <> "M"%char /\ c <> "S"%char /\ c <> "+"%char /\
  c <> "-"%char /\ c <> "_"%char.
Proof.
  destruct c as [[] [] [] [] [] [] [] []]; vm_compute; intros Hd;
    try discriminate Hd; repeat split; discriminate.
Qed.

Lemma int_digits_of_uint (d : Decimal.uint) :
  forall (acc : Z) (prev : bool),
    d <> Decimal.Nil \/ prev = true ->
    Py.int_digits (NilEmpty.string_of_uint d) acc prev = Some (uint_value d acc).
Proof.
  induction d; intros acc prev Hd;
    [ destruct Hd as [?| ->]; [done|reflexivity] | .. ];
    cbn [NilEmpty.string_of_uint Py.int_digits uint_value];
    match goal with
    | |- context [Py.digit_val ?c] =>
        let v := eval vm_compute in (Py.digit_val c) in
        change (Py.digit_val c) with v
    end; cbv iota; apply IHd; by right.
Qed.

Lemma uint_value_spec (d : Decimal.uint) :
  forall acc : Z,
    uint_value d acc =
    (Z.of_N (DecimalPos.Unsigned.of_lu (Decimal.rev d))
     + acc * 10 ^ Z.of_N (DecimalPos.Unsigned.usize d))%Z.
Proof.
  induction d; intros acc;
    [ simpl; lia | .. ];
    cbn [uint_value DecimalPos.Unsigned.usize]; rewrite IHd;
    unfold Decimal.rev at 2; cbn [Decimal.revapp];
    rewrite DecimalPos.Unsigned.of_lu_revapp; cbn [DecimalPos.Unsigned.of_lu];
    rewrite N2Z.inj_succ, Z.pow_succ_r by lia;
    rewrite N2Z.inj_add, N2Z.inj_mul, N2Z.inj_pow; simpl Z.of_N; lia.
Qed.

Lemma uint_value_pos (p : positive) : uint_value (Pos.to_uint p) 0 = Z.pos p.
Proof.
  rewrite uint_value_spec, <- DecimalPos.Unsigned.of_uint_alt, DecimalPos.Unsigned.of_to.
  simpl. lia.
Qed.

Lemma str_of_int_pos (p : positive) :
  Py.str_of_int (Z.pos p) = NilEmpty.string_of_uint (Pos.to_uint p).
Proof.
  unfold Py.str_of_int, Z.to_int, NilZero.string_of_int, NilZero.string_of_uint.
  pose proof (DecimalPos.Unsigned.to_uint_nonnil p) as Hnil.
  by destruct (Pos.to_uint p).
Qed.

Lemma digits_of_str_of_int (z : Z) :
  (0 <= z)%Z -> string_forall is_digit (Py.str_of_int z) = true.
Proof.
  destruct z as [|p|p]; intros Hz; [done| |lia].
  rewrite str_of_int_pos. apply digits_of_uint.
Qed.

Lemma strip_digits (s : string) : string_forall is_digit s = true -> Py.strip s = s.
Proof.
  intros Hs. unfold Py.strip.
  assert (Py.lstrip s = s) as ->.
  { destruct s as [|c s]; [done|]. simpl in Hs. apply andb_true_iff in Hs as [Hc _].
    apply lstrip_first. by apply is_digit_cases. }
  apply rstrip_no_space. revert Hs. apply string_forall_mono.
  intros c Hc. apply negb_true_iff. by apply is_digit_cases.
Qed.

Lemma int_of_str_unsigned (s : string) :
  string_forall is_digit s = true ->
  Py.int_of_str s = Py.int_digits s 0 false.
Proof.
  intros Hs. unfold Py.int_of_str. rewrite strip_digits by done.
  destruct s as [|c s]; [done|]. simpl in Hs. apply andb_true_iff in Hs as [Hc _].
  destruct c as [[] [] [] [] [] [] [] []]; try reflexivity; by vm_compute in Hc.
Qed.

(** [int(str(z)) == z] for a natural number [z]. *)
Lemma int_of_str_str_of_int (z : Z) :
  (0 <= z)%Z -> Py.int_of_str (Py.str_of_int z) = Some z.
Proof.
  intros Hz. rewrite int_of_str_unsigned by by apply digits_of_str_of_int.
  destruct z as [|p|p]; [done| |lia].
  rewrite str_of_int_pos, int_digits_of_uint.
  - by rewrite uint_value_pos.
  - left. apply DecimalPos.Unsigned.to_uint_nonnil.
Qed.

Lemma digits_free_of (c : ascii) (s : string) :
  is_digit c = false ->
  string_forall is_digit s = true -> string_forall (differs_from c) s = true.
Proof.
  intros Hc. apply string_forall_mono. intros x Hx.
  unfold differs_from. apply negb_true_iff, Ascii.eqb_neq. congruence.
Qed.

Lemma split_minutes_seconds (mins secs : string) :
  string_forall is_digit mins = true ->
  string_forall is_digit secs = true ->
  Py.split "M" ("PT" ++ mins ++ "M" ++ secs ++ "S") = ["PT" ++ mins; secs ++ "S"].
Proof.
  intros Hm Hs. unfold Py.split.
  change ("PT" ++ mins ++ "M" ++ secs ++ "S")
    with ("PT" ++ (mins ++ String "M" (secs ++ "S"))).
  rewrite <- string_app_assoc, split_scan_char.
  - rewrite split_scan_free; [done|].
    rewrite string_forall_app. rewrite (digits_free_of "M" secs) by done. done.
  - rewrite string_forall_app. rewrite (digits_free_of "M" mins) by done. done.
Qed.

Lemma split_seconds (secs : string) :
  string_forall is_digit secs = true ->
  Py.split "S" (secs ++ "S") = [secs; ""].
Proof.
  intros Hs. unfold Py.split.
  change (secs ++ "S") with (secs ++ String "S" "").
  rewrite split_scan_char by by apply digits_free_of. done.
Qed.

Lemma contains_miss (sub : string) (c : ascii) (s : string) :
  String.prefix sub (String c s) = false ->
  Py.contains sub (String c s) = Py.contains sub s.
Proof. intros Hp. cbn [Py.contains]. by rewrite Hp. Qed.

Lemma prefix_app (sub a b : string) :
  String.prefix sub a = true -> String.prefix sub (a ++ b) = true.
Proof.
  revert a. induction sub as [|x sub IH]; intros a Hp; [by destruct (a ++ b)|].
  destruct a as [|y a]; [done|]. rewrite string_app_cons. simpl in *.
  destruct (ascii_dec x y); [by apply IH|done].
Qed.

Lemma prefix_nil (s : string) : String.prefix "" s = true.
Proof. by destruct s. Qed.

(** An occurrence in [a] is an occurrence in [a ++ b]. *)
Lemma contains_app_l (sub a b : string) :
  Py.contains sub a = true -> Py.contains sub (a ++ b) = true.
Proof.
  induction a as [|c a IH]; intros Hc.
  - simpl in Hc. rewrite orb_false_r in Hc. destruct sub; [|done].
    destruct ("" ++ b); simpl; by rewrite ?prefix_nil.
  - apply orb_true_iff in Hc as [Hp|Hc].
    + rewrite string_app_cons. cbn [Py.contains].
      rewrite <- string_app_cons. by rewrite (prefix_app _ _ _ Hp).
    + rewrite string_app_cons. cbn [Py.contains]. rewrite (IH Hc). apply orb_true_r.
Qed.

(** A string that lacks one of the characters of [sub] does not start
    with [sub], and does not contain it. *)
Lemma prefix_foreign_char (c : ascii) (sub : string) :
  string_forall (differs_from c) sub = false ->
  forall s, string_forall (differs_from c) s = true -> String.prefix sub s = false.
Proof.
  induction sub as [|x sub IH]; intros Hsub s Hs; [done|].
  destruct s as [|y s]; [done|]. simpl in *.
  apply andb_true_iff in Hs as [Hy Hs].
  destruct (ascii_dec x y) as [->|Hne]; [|done].
  rewrite Hy in Hsub. by apply IH.
Qed.

Lemma contains_foreign_char (c : ascii) (sub s : string) :
  string_forall (differs_from c) sub = false ->
  string_forall (differs_from c) s = true -> Py.contains sub s = false.
Proof.
  intros Hsub. induction s as [|y s IH]; intros Hs.
  - cbn [Py.contains]. rewrite orb_false_r. by apply (prefix_foreign_char c).
  - cbn [Py.contains]. rewrite (prefix_foreign_char c) by done.
    simpl in Hs. apply andb_true_iff in Hs as [_ Hs]. by apply IH.
Qed.

Lemma split_scan_miss (sep : string) (c : ascii) (s cur : string) :
  String.prefix sep (String c s) = false ->
  Py.split_scan sep (String c s) 0 cur = Py.split_scan sep s 0 (cur ++ String c "").
Proof. intros Hp. cbn [Py.split_scan]. by rewrite Hp. Qed.

Lemma split_scan_hit (sep : string) (c : ascii) (s cur : string) :
  String.prefix sep (String c s) = true ->
  Py.split_scan sep (String c s) 0 cur =
  cur :: Py.split_scan sep s (String.length sep - 1) "".
Proof. intros Hp. cbn [Py.split_scan]. by rewrite Hp. Qed.

Lemma split_scan_skip (sep : string) (c : ascii) (s cur : string) (k : nat) :
  Py.split_scan sep (String c s) (S k) cur = Py.split_scan sep s k cur.
Proof. reflexivity. Qed.

(** Without an occurrence of the separator there is a single piece. *)
Lemma split_scan_no_occurrence (sep s : string) :
  forall cur : string,
    Py.contains sep s = false -> Py.split_scan sep s 0 cur = [cur ++ s].
Proof.
  induction s as [|c s IH]; intros cur Hc.
  - simpl. by rewrite string_app_nil_r.
  - cbn [Py.contains] in Hc. apply orb_false_iff in Hc as [Hp Hc].
    rewrite split_scan_miss by done. rewrite IH by done.
    by rewrite string_app_assoc.
Qed.

Lemma id_char_cases (c : ascii) :
  id_char c = true ->
  Py.isspace c = false /\ c <> "."%char /\ c <> "?"%char /\ c <> "&"%char.
Proof.
  destruct c as [[] [] [] [] [] [] [] []]; vm_compute; intros Hd;
    try discriminate Hd; repeat split; discriminate.
Qed.

Lemma id_chars_free_of (c : ascii) (s : string) :
  id_char c = false ->
  string_forall id_char s = true -> string_forall (differs_from c) s = true.
Proof.
  intros Hc. apply string_forall_mono. intros x Hx.
  unfold differs_from. apply negb_true_iff, Ascii.eqb_neq. congruence.
Qed.

Lemma id_chars_no_space (s : string) :
  string_forall id_char s = true ->
  string_forall (fun c => negb (Py.isspace c)) s = true.
Proof.
  apply string_forall_mono. intros c Hc. apply negb_true_iff. by apply id_char_cases.
Qed.

End Strings.

(** ** The collector: normalizing plain links *)

Section Normalization.

Import Collector.

Lemma split_short_form (rest : string) :
  Py.contains "youtu.be/" rest = false ->
  Py.split "youtu.be/" ("https://youtu.be/" ++ rest) = ["https://"; rest].
Proof.
  intros Hrest. unfold Py.split.
  rewrite !string_app_cons, string_app_nil_l.
  repeat (rewrite split_scan_miss by reflexivity).
  rewrite split_scan_hit by exact (prefix_app "youtu.be/" "youtu.be/" rest eq_refl).
  change (String.length "youtu.be/" - 1)%nat with 8%nat.
  rewrite !split_scan_skip.
  rewrite split_scan_no_occurrence by done.
  reflexivity.
Qed.

Lemma contains_long_form (rest : string) :
  string_forall (differs_from ".") rest = true ->
  Py.contains "youtu.be" ("https://www.youtube.com/watch?v=" ++ rest) = false.
Proof.
  intros Hrest. rewrite !string_app_cons, string_app_nil_l.
  repeat (rewrite contains_miss by reflexivity).
  by apply (contains_foreign_char ".").
Qed.

Lemma strip_long_form (v : string) :
  string_forall id_char v = true -> Py.strip (long_form v) = long_form v.
Proof.
  intros Hv. unfold Py.strip, long_form.
  change ("https://www.youtube.com/watch?v=" ++ v)
    with (String "h" ("ttps://www.youtube.com/watch?v=" ++ v)) at 1.
  rewrite lstrip_first by reflexivity.
  apply rstrip_no_space.
  change (String "h" ("ttps://www.youtube.com/watch?v=" ++ v))
    with ("https://www.youtube.com/watch?v=" ++ v).
  rewrite string_forall_app, (id_chars_no_space v Hv). reflexivity.
Qed.

Lemma long_form_free_of_amp (v : string) :
  string_forall id_char v = true ->
  string_forall (differs_from "&") (long_form v) = true.
Proof.
  intros Hv. unfold long_form. rewrite string_forall_app.
  rewrite (id_chars_free_of "&" v eq_refl Hv). reflexivity.
Qed.

(** A short link, with or without a query, is expanded to the long
    form of its video. *)
Lemma convert_short_form (v q : string) :
  string_forall id_char v = true ->
  string_forall (differs_from ".") q = true ->
  convert_short_youtube_url (short_form v) = long_form v /\
  convert_short_youtube_url (short_form v ++ "?" ++ q) = long_form v.
Proof.
  intros Hv Hq.
  pose proof (id_chars_free_of "." v eq_refl Hv) as Hdot.
  pose proof (id_chars_free_of "?" v eq_refl Hv) as Hqm.
  unfold convert_short_youtube_url, short_form. split.
  - rewrite (contains_app_l "youtu.be" "https://youtu.be/" v) by reflexivity.
    rewrite split_short_form by by apply (contains_foreign_char ".").
    unfold Py.last_piece; cbn [List.last]. unfold Py.split.
    rewrite split_scan_free by done. reflexivity.
  - rewrite string_app_assoc.
    rewrite (contains_app_l "youtu.be" "https://youtu.be/" (v ++ "?" ++ q)) by reflexivity.
    rewrite split_short_form.
    + unfold Py.last_piece; cbn [List.last]. unfold Py.split.
      change (v ++ "?" ++ q) with (v ++ String "?" q).
      rewrite split_scan_char by done. reflexivity.
    + apply (contains_foreign_char "."); [reflexivity|].
      rewrite string_forall_app, Hdot. change ("?" ++ q) with (String "?" q).
      simpl. by rewrite Hq.
Qed.

(** The long form, with or without further parameters, is cut at the
    first [&] and otherwise kept. *)
Lemma clean_long_form (v q : string) :
  string_forall id_char v = true ->
  string_forall (differs_from ".") q = true ->
  clean_url (long_form v) = long_form v /\
  clean_url (long_form v ++ "&" ++ q) = long_form v.
Proof.
  intros Hv Hq.
  pose proof (id_chars_free_of "." v eq_refl Hv) as Hdot.
  pose proof (long_form_free_of_amp v Hv) as Hamp.
  unfold clean_url, convert_short_youtube_url. split.
  - unfold long_form at 1. rewrite contains_long_form by done.
    fold (long_form v). unfold Py.split.
    rewrite split_scan_free by done.
    cbn [Py.first_piece hd]. rewrite string_app_nil_l. by apply strip_long_form.
  - unfold long_form at 1. rewrite string_app_assoc. rewrite contains_long_form.
    + unfold Py.split.
      change (long_form v ++ "&" ++ q) with (long_form v ++ String "&" q).
      rewrite split_scan_char by done.
      cbn [Py.first_piece hd]. rewrite string_app_nil_l. by apply strip_long_form.
    + rewrite string_forall_app, Hdot. change ("&" ++ q) with (String "&" q).
      simpl. by rewrite Hq.
Qed.

(** X13. On plain links the normalization converges: for an identifier made
    of letters, digits, [-] and [_], the short link and the long form,
    each with or without parameters that carry no dot, are normalized
    to the same long form, and normalizing that long form again changes
    nothing. *)
Lemma clean_url_converges_on_plain_links (v q : string) :
  string_forall id_char v = true ->
  string_forall (differs_from ".") q = true ->
  clean_url (short_form v) = long_form v /\
  clean_url (short_form v ++ "?" ++ q) = long_form v /\
  clean_url (long_form v) = long_form v /\
  clean_url (long_form v ++ "&" ++ q) = long_form v /\
  clean_url (clean_url (short_form v)) = clean_url (short_form v).
Proof.
  intros Hv Hq.
  destruct (convert_short_form v q Hv Hq) as [Hshort Hshortq].
  destruct (clean_long_form v q Hv Hq) as [Hlong Hlongq].
  pose proof (long_form_free_of_amp v Hv) as Hamp.
  assert (forall u, convert_short_youtube_url u = long_form v -> clean_url u = long_form v)
    as Hclean.
  { intros u Hu. unfold clean_url. rewrite Hu. unfold Py.split.
    rewrite split_scan_free by done.
    cbn [Py.first_piece hd]. rewrite string_app_nil_l. by apply strip_long_form. }
  rewrite (Hclean _ Hshort), (Hclean _ Hshortq). by rewrite Hlong.
Qed.

End Normalization.

(** ** The collector: durations *)

Section Durations.

Import Collector.

Lemma fmt_02_two_digits (z : Z) : (0 <= z < 60)%Z -> Py.fmt_02 z = two_digits z.
Proof.
  intros Hz.
  assert (exists n, z = Z.of_nat n /\ (n < 60)%nat) as (n & -> & Hn)
    by (exists (Z.to_nat z); lia).
  clear Hz. do 60 (destruct n as [|n]; [reflexivity|]). lia.
Qed.

Lemma slice_from_PT (s : string) : Py.slice_from 2 ("PT" ++ s) = s.
Proof. reflexivity. Qed.

Lemma parse_duration_hms (h m s : Z) :
  (0 <= h)%Z -> (0 <= m < 60)%Z -> (0 <= s < 60)%Z ->
  parse_duration (duration_content h m s) =
  Returned (display h m s, (h * 3600 + m * 60 + s)%Z).
Proof.
  intros Hh Hm Hs. unfold parse_duration, duration_content.
  rewrite split_minutes_seconds by (apply digits_of_str_of_int; lia).
  cbn [Py.first_piece hd]. rewrite slice_from_PT.
  rewrite int_of_str_str_of_int by lia.
  change ((["PT" ++ Py.str_of_int (60 * h + m); Py.str_of_int s ++ "S"] : list string) !! 1%nat)
    with (Some (Py.str_of_int s ++ "S")).
  cbv iota. rewrite split_seconds by (apply digits_of_str_of_int; lia).
  cbn [Py.first_piece hd]. rewrite int_of_str_str_of_int by lia.
  assert ((60 * h + m) / 60 = h)%Z as -> by (symmetry; apply (Z.div_unique _ _ h m); lia).
  assert ((60 * h + m) mod 60 = m)%Z as -> by (symmetry; apply (Z.mod_unique _ _ h m); lia).
  unfold display. by rewrite !fmt_02_two_digits.
Qed.

(** C5. Duration computation: for a duration of [h] hours, [m] minutes
    and [s] seconds on the page, [get_duration] gives the display
    [H:MM:SS] when [h > 0] and [M:SS] otherwise, together with the
    total [h*3600 + m*60 + s] seconds. *)
Theorem get_duration_hms (soup : Soup) (h m s : Z) :
  (0 <= h)%Z -> (0 <= m < 60)%Z -> (0 <= s < 60)%Z ->
  itemprop_duration soup = Some (Some (duration_content h m s)) ->
  get_duration soup = Returned (Some (display h m s, (h * 3600 + m * 60 + s)%Z)).
Proof.
  intros Hh Hm Hs Hsoup. unfold get_duration. rewrite Hsoup.
  by rewrite parse_duration_hms.
Qed.

Lemma get_duration_hms_witness :
  get_duration (soup_with_duration "PT62M3S") = Returned (Some ("1:02:03", 3723%Z)) /\
  get_duration (soup_with_duration "PT5M9S") = Returned (Some ("5:09", 309%Z)).
Proof.
  split.
  - apply (get_duration_hms (soup_with_duration "PT62M3S") 1 2 3); [lia|lia|lia|reflexivity].
  - apply (get_duration_hms (soup_with_duration "PT5M9S") 0 5 9); [lia|lia|lia|reflexivity].
Defined.

End Durations.

(** ** The collector: the scraping loop *)

Section Collection.

Import Collector.

Context (fetch : string -> fetch_result) (strptime_strftime : string -> option string)
        (csv_reader : string -> list (list string))
        (csv_writerow : list string -> string)
        (open_append_error : string -> option string).

Local Abbreviation get_date_published := (get_date_published strptime_strftime).
Local Abbreviation get_video_info := (get_video_info fetch strptime_strftime).
Local Abbreviation scrape_loop := (scrape_loop fetch strptime_strftime).
Local Abbreviation read_urls_from_csv := (read_urls_from_csv csv_reader).
Local Abbreviation write_video_info_to_csv :=
  (write_video_info_to_csv csv_writerow open_append_error).
Local Abbreviation scrape_and_write_video_info :=
  (scrape_and_write_video_info fetch strptime_strftime csv_reader csv_writerow
     open_append_error).

Local Abbreviation notices_by_sequence_number :=
  (notices_by_sequence_number fetch strptime_strftime).

Lemma get_video_info_body_absent (url : string) (soup : Soup) :
  fetch url = Fetched soup ->
  field_absent soup ->
  forall vi, get_video_info_body fetch strptime_strftime url <> Returned (Some vi).
Proof.
  intros Hfetch Habsent vi. unfold get_video_info_body.
  destruct (negb _); [done|]. rewrite Hfetch.
  unfold Collector.get_date_published, get_duration, get_video_ID, get_title.
  destruct Habsent as [H|[H|[H|H]]]; rewrite H; simpl;
    repeat match goal with
           | |- context [match ?x with _ => _ end] =>
               destruct x; simpl; rewrite ?andb_false_r; simpl; try done
           | |- context [parse_duration ?s] =>
               destruct (parse_duration s) as [[? ?]|]; simpl;
               rewrite ?andb_false_r; simpl; try done
           end.
Qed.

Lemma scrape_loop_skips (url : string) (number : Z) (rest : list string)
    (video_info_list : list ItemRecord) (w : World) :
  get_video_info url = Returned None ->
  scrape_loop number (url :: rest) video_info_list w =
  scrape_loop (number + 1) rest video_info_list w.
Proof. intros Hnone. simpl. unfold bind, lift. by rewrite Hnone. Qed.

Lemma scrape_loop_raises (url : string) (e : exn) (number : Z) (rest : list string)
    (video_info_list : list ItemRecord) (w : World) :
  get_video_info url = Raised e ->
  scrape_loop number (url :: rest) video_info_list w = (Raised e, w).
Proof. intros Hraise. simpl. unfold bind, lift. by rewrite Hraise. Qed.

(** C8, as the code has it. Incomplete metadata never yields a partial
    record: when one of the four [meta] tags is absent from the
    fetched page, [get_video_info] never returns a record.  What
    happens next depends on the tags that are there, which are read
    before the completeness test: when the date and the duration can
    be read, [get_video_info] returns [None] and the loop goes on with
    the next item, its list unchanged; when one of them cannot, its
    getter raises, so does [get_video_info], and the loop ends there
    with that exception. *)
Theorem incomplete_metadata_yields_no_record (url : string) (soup : Soup) :
  fetch url = Fetched soup ->
  field_absent soup ->
  (forall vi, get_video_info url <> Returned (Some vi)) /\
  (Py.contains "youtube.com/watch" url = true ->
   match get_date_published soup, get_duration soup with
   | Returned _, Returned _ =>
       get_video_info url = Returned None /\
       forall number rest video_info_list w,
         scrape_loop number (url :: rest) video_info_list w =
         scrape_loop (number + 1) rest video_info_list w
   | _, _ =>
       exists e,
         get_video_info url = Raised e /\
         forall number rest video_info_list w,
           scrape_loop number (url :: rest) video_info_list w = (Raised e, w)
   end).
Proof.
  intros Hfetch Habsent.
  assert (forall vi, get_video_info url <> Returned (Some vi)) as Hnever.
  { intros vi. unfold Collector.get_video_info.
    pose proof (get_video_info_body_absent url soup Hfetch Habsent) as Hbody.
    destruct (get_video_info_body _ _ _) as [[vi'|]|e]; [|done..].
    by specialize (Hbody vi'). }
  split; [done|]. intros Hlong.
  destruct (get_date_published soup) as [d|e1] eqn:Hd.
  - destruct (get_duration soup) as [du|e2] eqn:Hdu.
    + assert (get_video_info url = Returned None) as Hnone.
      { specialize Hnever. unfold Collector.get_video_info in *.
        unfold get_video_info_body in *. rewrite Hlong, Hfetch in *. simpl in *.
        rewrite Hd, Hdu in *. simpl in *.
        destruct du as [[dstr dsec]|]; [|done].
        destruct (truthy _ && truthy _ && truthy _); [|done].
        by edestruct Hnever. }
      split; [done|]. intros. by apply scrape_loop_skips.
    + exists (reraise e2).
      assert (get_video_info url = Raised (reraise e2)) as Hraise.
      { unfold Collector.get_video_info, get_video_info_body.
        rewrite Hlong, Hfetch. simpl. by rewrite Hd, Hdu. }
      split; [done|]. intros. by apply scrape_loop_raises.
  - exists (reraise e1).
    assert (get_video_info url = Raised (reraise e1)) as Hraise.
    { unfold Collector.get_video_info, get_video_info_body.
      rewrite Hlong, Hfetch. simpl. by rewrite Hd. }
    split; [done|]. intros. by apply scrape_loop_raises.
Qed.

Lemma scrape_loop_aborts (url : string) (e0 : exn) (urls : list string) :
  url ∈ urls ->
  get_video_info url = Raised e0 ->
  forall number video_info_list w,
    exists e w',
      scrape_loop number urls video_info_list w = (Raised e, w') /\
      csv_files w' = csv_files w.
Proof.
  intros Hin Hraise. induction urls as [|u rest IH]; [by apply elem_of_nil in Hin|].
  intros number video_info_list w. simpl. unfold bind at 1. unfold lift.
  destruct (decide (u = url)) as [->|Hne].
  - rewrite Hraise. eauto.
  - assert (url ∈ rest) as Hrest by (apply elem_of_cons in Hin as [?|?]; congruence).
    destruct (get_video_info u) as [[vi|]|e]; [| |eauto].
    + unfold bind. destruct (_ =? _)%Z; unfold print, ret; simpl.
      * exact (IH Hrest _ _ {| csv_files := csv_files w;
                               stdout := (stdout w ++ [progress_notice number])%list |}).
      * apply IH, Hrest.
    + apply IH, Hrest.
Qed.

(** C9. A short link aborts the collection: a URL that contains
    [youtu.be] and not [youtube.com/watch] is accepted by
    [is_valid_youtube_url], yet [get_video_info] raises
    [ValueError("Invalid YouTube video URL.")] for it; with such a URL
    in a row of the input file, [scrape_and_write_video_info] ends with
    an exception and no CSV file has changed. *)
Theorem short_link_aborts_collection (url : string) :
  Py.contains "youtu.be" url = true ->
  Py.contains "youtube.com/watch" url = false ->
  is_valid_youtube_url url = true /\
  get_video_info url = Raised (ValueError "Invalid YouTube video URL.") /\
  forall input_file output_file w text other_fields,
    csv_files w !! input_file = Some text ->
    (url :: other_fields) ∈ csv_reader text ->
    exists e w',
      scrape_and_write_video_info input_file output_file w = (Raised e, w') /\
      csv_files w' = csv_files w.
Proof.
  intros Hshort Hlong.
  assert (is_valid_youtube_url url = true) as Hvalid
    by (unfold is_valid_youtube_url; by rewrite Hshort, orb_true_r).
  assert (get_video_info url = Raised (ValueError "Invalid YouTube video URL.")) as Hraise
    by (unfold Collector.get_video_info, get_video_info_body; by rewrite Hlong).
  repeat split; try done.
  intros input_file output_file w text other_fields Hrows Hrow.
  unfold Collector.scrape_and_write_video_info, bind at 1, Collector.read_urls_from_csv.
  rewrite Hrows. unfold ret at 1. unfold bind.
  destruct (scrape_loop_aborts url (ValueError "Invalid YouTube video URL.")
              (omap (fun row => match row with
                                | url :: _ => if is_valid_youtube_url url then Some url else None
                                | [] => None
                                end) (csv_reader text))) with (number := 1%Z) (video_info_list := @nil ItemRecord) (w := w)
    as (e & w' & Hloop & Hw'); [|done|].
  - apply list_elem_of_omap. exists (url :: other_fields). split; [done|].
    by rewrite Hvalid.
  - rewrite Hloop. eauto.
Qed.


End Collection.

(** ** The sample run of the collector *)

Section SampleCollectionFacts.

Import Collector.

Lemma incomplete_metadata_yields_no_record_witness :
  get_video_info sample_fetch sample_strptime_strftime untitled_url = Returned None /\
  forall number rest video_info_list w,
    scrape_loop sample_fetch sample_strptime_strftime number (untitled_url :: rest)
      video_info_list w =
    scrape_loop sample_fetch sample_strptime_strftime (number + 1) rest video_info_list w.
Proof.
  destruct (incomplete_metadata_yields_no_record sample_fetch sample_strptime_strftime
              untitled_url (sample_soup_untitled "untitled001")) as [_ Hskip].
  - vm_compute. reflexivity.
  - right. left. reflexivity.
  - apply Hskip. vm_compute. reflexivity.
Defined.

(** C8, as stated, fails: the page of this clip has no title tag, and
    the collector does not go on with the next item.  The duration
    that is there is read first and cannot be; [get_video_info]
    raises, and a run with this URL in its input ends with the
    exception, the video after it never looked at. *)
Lemma incomplete_page_stops_collection :
  untitled_clip_fetch untitled_clip_url = Fetched (sample_soup_untitled_clip "clip0000002") /\
  field_absent (sample_soup_untitled_clip "clip0000002") /\
  is_valid_youtube_url untitled_clip_url = true /\
  get_video_info untitled_clip_fetch sample_strptime_strftime untitled_clip_url =
    Raised (ValueError "invalid literal for int() with base 10") /\
  scrape_loop untitled_clip_fetch sample_strptime_strftime 1
    [untitled_clip_url; "https://www.youtube.com/watch?v=video000002"] [] empty_world =
    (Raised (ValueError "invalid literal for int() with base 10"), empty_world).
Proof.
  split; [reflexivity|]. split; [right; left; reflexivity|].
  repeat split; vm_compute; reflexivity.
Qed.

Lemma short_link_aborts_collection_witness :
  is_valid_youtube_url short_link = true /\
  get_video_info sample_fetch sample_strptime_strftime short_link =
    Raised (ValueError "Invalid YouTube video URL.") /\
  forall input_file output_file w text other_fields,
    csv_files w !! input_file = Some text ->
    (short_link :: other_fields) ∈ sample_csv_reader text ->
    exists e w',
      sample_scrape_and_write_video_info input_file output_file w = (Raised e, w') /\
      csv_files w' = csv_files w.
Proof.
  apply (short_link_aborts_collection sample_fetch sample_strptime_strftime
           sample_csv_reader sample_csv_writerow sample_open_append_error short_link).
  - vm_compute. reflexivity.
  - vm_compute. reflexivity.
Defined.



(** C7, at the failing input. The short link of a video is normalized
    to its long form, but the equivalent long form that carries
    [&feature=youtu.be] is taken for a short link and is normalized to
    a URL that names no video; the collector accepts that URL and
    records the broken form. *)
Theorem feature_link_is_not_normalized :
  clean_url short_link = "https://www.youtube.com/watch?v=dQw4w9WgXcQ" /\
  clean_url feature_link = "https://www.youtube.com/watch?v=https://www.youtube.com/watch" /\
  clean_url short_link <> clean_url feature_link /\
  is_valid_youtube_url feature_link = true /\
  exists records,
    (sample_scrape_loop [feature_link]).1 = Returned records /\
    map URL records = ["https://www.youtube.com/watch?v=https://www.youtube.com/watch"].
Proof.
  split; [vm_compute; reflexivity|]. split; [vm_compute; reflexivity|].
  split; [vm_compute; discriminate|]. split; [vm_compute; reflexivity|].
  eexists. split; vm_compute; reflexivity.
Qed.

End SampleCollectionFacts.

(** * Further properties of the two scripts *)

(** ** Strings: replacing and stripping *)

Section MoreStrings.

Lemma replace_scan_miss (old new : string) (c : ascii) (s : string) :
  String.prefix old (String c s) = false ->
  Py.replace_scan old new (String c s) 0 = String c (Py.replace_scan old new s 0).
Proof. intros Hp. cbn [Py.replace_scan]. by rewrite Hp. Qed.

(** Without an occurrence of [old] nothing is replaced. *)
Lemma replace_no_occurrence (old new s : string) :
  Py.contains old s = false -> Py.replace old new s = s.
Proof.
  unfold Py.replace. induction s as [|c s IH]; intros Hc; [done|].
  cbn [Py.contains] in Hc. apply orb_false_iff in Hc as [Hp Hc].
  rewrite replace_scan_miss by done. by rewrite IH.
Qed.

(** Replacing a character by a string that lacks it leaves none of it. *)
Lemma replace_char_free (c : ascii) (new s : string) :
  string_forall (differs_from c) new = true ->
  string_forall (differs_from c) (Py.replace (String c "") new s) = true.
Proof.
  intros Hnew. unfold Py.replace. induction s as [|x s IH]; [done|].
  cbn [Py.replace_scan]. rewrite prefix_char.
  destruct (Ascii.eqb x c) eqn:Hx.
  - cbn [String.length Nat.sub]. by rewrite string_forall_app, Hnew, IH.
  - cbn [string_forall]. unfold differs_from at 1. by rewrite Hx, IH.
Qed.

Lemma lstrip_forall (P : ascii -> bool) (s : string) :
  string_forall P s = true -> string_forall P (Py.lstrip s) = true.
Proof.
  induction s as [|c s IH]; [done|]. intros Hs. cbn [Py.lstrip].
  destruct (Py.isspace c); [|done].
  simpl in Hs. apply andb_true_iff in Hs as [_ Hs]. by apply IH.
Qed.

Lemma rstrip_forall (P : ascii -> bool) (s : string) :
  string_forall P s = true -> string_forall P (Py.rstrip s) = true.
Proof.
  induction s as [|c s IH]; [done|]. intros Hs.
  simpl in Hs. apply andb_true_iff in Hs as [Hc Hs]. specialize (IH Hs).
  cbn [Py.rstrip]. destruct (Py.rstrip s) as [|y r].
  - destruct (Py.isspace c); [done|]. simpl. by rewrite Hc.
  - cbn [string_forall] in *. by rewrite Hc, IH.
Qed.

Lemma strip_forall (P : ascii -> bool) (s : string) :
  string_forall P s = true -> string_forall P (Py.strip s) = true.
Proof. intros Hs. by apply rstrip_forall, lstrip_forall. Qed.

Lemma rstrip_idempotent (s : string) : Py.rstrip (Py.rstrip s) = Py.rstrip s.
Proof.
  induction s as [|c s IH]; [done|]. cbn [Py.rstrip].
  destruct (Py.rstrip s) as [|y r] eqn:Hr.
  - destruct (Py.isspace c) eqn:Hc; [done|]. cbn [Py.rstrip]. by rewrite Hc.
  - cbn [Py.rstrip]. cbn [Py.rstrip] in IH.
    destruct (match Py.rstrip r with
              | "" => if Py.isspace y then "" else String y ""
              | String a s0 => String y (String a s0)
              end) as [|z t] eqn:Hm; [done|].
    by rewrite <- IH.
Qed.

(** The left end of a string that [lstrip] returned is kept by [rstrip]. *)
Lemma lstrip_rstrip_lstrip (s : string) :
  Py.lstrip (Py.rstrip (Py.lstrip s)) = Py.rstrip (Py.lstrip s).
Proof.
  induction s as [|c s IH]; [done|]. cbn [Py.lstrip].
  destruct (Py.isspace c) eqn:Hc; [done|].
  cbn [Py.rstrip]. destruct (Py.rstrip s) as [|y r].
  - rewrite Hc. cbn [Py.lstrip]. by rewrite Hc.
  - cbn [Py.lstrip]. by rewrite Hc.
Qed.

(** [s.strip().strip() == s.strip()]. *)
Lemma strip_idempotent (s : string) : Py.strip (Py.strip s) = Py.strip s.
Proof.
  unfold Py.strip. by rewrite lstrip_rstrip_lstrip, rstrip_idempotent.
Qed.

End MoreStrings.

(** ** The transcriber: resolving identifiers, the remaining cases *)

Section ResolutionMore.

Import Transcriber.

(** X1. Without a start identifier (the script's default) the whole
    table is taken: with the identifier column present,
    [videos_to_transcribe] returns the identifiers of all rows in table
    order, leaving out the rows whose identifier is missing and
    printing one warning for each of them. *)
Theorem videos_to_transcribe_from_the_top (df : DataFrame) (w : World) :
  "Video ID" ∈ columns df ->
  videos_to_transcribe df "" w =
  (Returned (omap id (column df "Video ID")),
   log w (missing_warnings 0 (column df "Video ID"))).
Proof.
  intros Hcol. unfold videos_to_transcribe.
  rewrite bool_decide_eq_true_2 by done.
  unfold bind; simpl. unfold ret. by rewrite iterrows_loop_spec.
Qed.

(** X2. An empty table is never an error: with the identifier column
    present and no row, [videos_to_transcribe] returns the empty list
    and prints nothing, whatever the start identifier. *)
Theorem videos_to_transcribe_empty_table (df : DataFrame) (start_video_id : string)
    (w : World) :
  "Video ID" ∈ columns df ->
  rows df = [] ->
  videos_to_transcribe df start_video_id w = (Returned [], w).
Proof.
  intros Hcol Hrows. unfold videos_to_transcribe.
  rewrite bool_decide_eq_true_2 by done.
  assert (column df "Video ID" = []) as -> by (unfold column; rewrite Hrows; by destruct list_find as [[]|]).
  rewrite bool_decide_eq_true_2 by done. rewrite andb_false_r.
  unfold bind, ret; simpl. by destruct w.
Qed.

End ResolutionMore.

(** ** The transcriber: how one item ends *)

Section ItemsMore.

Import Transcriber.

Context (ydl_download : YdlOpts -> string -> gmap string string -> option exn * gmap string string)
        (ydl_prepare_filename : YdlOpts -> string -> outcome string)
        (cuda_is_available : bool)
        (Model : Type)
        (whisper_load_model : string -> string -> outcome Model)
        (model_transcribe : Model -> string -> gmap string string -> outcome string).

Local Abbreviation get_OpenAI_transcript :=
  (get_OpenAI_transcript ydl_download ydl_prepare_filename cuda_is_available Model
     whisper_load_model model_transcribe).

Lemma tidy_transcript (result_text : string) :
  tidy (Py.strip (Py.replace newline " " result_text)).
Proof.
  split.
  - apply strip_forall. by apply (replace_char_free newline_char " ").
  - apply strip_idempotent.
Qed.

(** X4. A transcribed item: when no file name contains the identifier,
    the download succeeds, the model size is known and the model
    returns a text, [get_OpenAI_transcript] returns normally; the
    directory is the one the downloader left plus one file, named as
    the audio with [.mp3] replaced by [.txt], and the text written
    there is the model's text with its line breaks turned into spaces
    and no white space around it. *)
Theorem transcript_written_beside_audio (model_size video_id : string)
    (fetch_description hide_verbose : bool) (w : World) (fs : gmap string string)
    (path model_name result_text : string) (model : Model) :
  existsb (fun file_name => Py.contains video_id file_name)
          (map fst (map_to_list (files w))) = false ->
  ydl_download (ydl_opts video_id fetch_description hide_verbose)
    ("https://www.youtube.com/watch?v=" ++ video_id) (files w) = (None, fs) ->
  ydl_prepare_filename (ydl_opts video_id fetch_description hide_verbose)
    ("https://www.youtube.com/watch?v=" ++ video_id) = Returned path ->
  model_sizes_get model_size = Some model_name ->
  whisper_load_model model_name (device cuda_is_available) = Returned model ->
  let file_path := Py.replace ".m4a" ".mp3" (Py.replace ".webm" ".mp3" path) in
  let name := Py.replace ".mp3" ".txt" file_path in
  model_transcribe model file_path fs = Returned result_text ->
  exists w' text,
    get_OpenAI_transcript model_size video_id fetch_description hide_verbose w =
      (Returned tt, w') /\
    files w' = <[name := text]> fs /\
    tidy text /\
    (forall other, other <> name -> files w' !! other = fs !! other) /\
    trace w' =
      (trace w ++ [Download ("https://www.youtube.com/watch?v=" ++ video_id);
                   ExtractInfo ("https://www.youtube.com/watch?v=" ++ video_id);
                   LoadModel model_name (device cuda_is_available);
                   Transcribe file_path;
                   WriteFile name text;
                   Print ("############# Done video: " ++ name ++ " #############")])%list.
Proof.
  intros Hnew Hdl Hpath Hsize Hload file_path name Htext.
  eexists _, (Py.strip (Py.replace newline " " result_text)).
  split; [by eapply get_OpenAI_transcript_transcribes|]. simpl.
  split; [done|]. split; [apply tidy_transcript|]. split.
  - intros other Hother. by rewrite lookup_insert_ne.
  - done.
Qed.

(** X6. A container the script does not know: when the name of the
    download holds none of [.webm], [.m4a] and [.mp3], that name is
    handed unchanged to the model, and the transcript is written under
    the very same name instead of a [.txt] name. *)
Theorem unknown_container_keeps_its_name (model_size video_id : string)
    (fetch_description hide_verbose : bool) (w : World) (fs : gmap string string)
    (path model_name result_text : string) (model : Model) :
  existsb (fun file_name => Py.contains video_id file_name)
          (map fst (map_to_list (files w))) = false ->
  ydl_download (ydl_opts video_id fetch_description hide_verbose)
    ("https://www.youtube.com/watch?v=" ++ video_id) (files w) = (None, fs) ->
  ydl_prepare_filename (ydl_opts video_id fetch_description hide_verbose)
    ("https://www.youtube.com/watch?v=" ++ video_id) = Returned path ->
  Py.contains ".webm" path = false ->
  Py.contains ".m4a" path = false ->
  Py.contains ".mp3" path = false ->
  model_sizes_get model_size = Some model_name ->
  whisper_load_model model_name (device cuda_is_available) = Returned model ->
  model_transcribe model path fs = Returned result_text ->
  exists w',
    get_OpenAI_transcript model_size video_id fetch_description hide_verbose w =
      (Returned tt, w') /\
    Transcribe path ∈ trace w' /\
    files w' = <[path := Py.strip (Py.replace newline " " result_text)]> fs.
Proof.
  intros Hnew Hdl Hpath Hwebm Hm4a Hmp3 Hsize Hload Htext.
  assert (Py.replace ".m4a" ".mp3" (Py.replace ".webm" ".mp3" path) = path) as Hsame.
  { rewrite (replace_no_occurrence ".webm" ".mp3" path Hwebm).
    by apply replace_no_occurrence. }
  eexists. split.
  - eapply get_OpenAI_transcript_transcribes; try done. by rewrite Hsame.
  - simpl. rewrite Hsame, (replace_no_occurrence ".mp3" ".txt" path Hmp3).
    split; [|done]. apply list_elem_of_In, in_app_iff. right. simpl. tauto.
Qed.

(** X7. A model size that is not in the table is found out late: when
    no file name contains the identifier and the download succeeds,
    [get_OpenAI_transcript] raises [ValueError] only after the audio
    has been downloaded; nothing is transcribed or written, and the
    directory is the one the downloader left. *)
Theorem invalid_model_size_raises_after_download (model_size video_id : string)
    (fetch_description hide_verbose : bool) (w : World) (fs : gmap string string)
    (path : string) :
  existsb (fun file_name => Py.contains video_id file_name)
          (map fst (map_to_list (files w))) = false ->
  ydl_download (ydl_opts video_id fetch_description hide_verbose)
    ("https://www.youtube.com/watch?v=" ++ video_id) (files w) = (None, fs) ->
  ydl_prepare_filename (ydl_opts video_id fetch_description hide_verbose)
    ("https://www.youtube.com/watch?v=" ++ video_id) = Returned path ->
  model_sizes_get model_size = None ->
  get_OpenAI_transcript model_size video_id fetch_description hide_verbose w =
  (Raised (ValueError
     "Invalid model size. Please choose from: 'tiny', 'base', 'small', 'medium', 'large'."),
   {| files := fs;
      trace := (trace w ++ [Download ("https://www.youtube.com/watch?v=" ++ video_id);
                            ExtractInfo ("https://www.youtube.com/watch?v=" ++ video_id)])%list |}).
Proof.
  intros Hnew Hdl Hpath Hsize.
  unfold Transcriber.get_OpenAI_transcript, bind, os_listdir, download, prepare_filename,
    load_model, emit, lift, raise, bind.
  rewrite Hnew, Hdl. simpl. rewrite Hpath, Hsize. simpl. by rewrite <- app_assoc.
Qed.

(** A string that lacks the first character of [old] is kept by
    [replace], which goes on behind it. *)
Lemma replace_free_prefix (c : ascii) (old new stem rest : string) :
  string_forall (differs_from c) stem = true ->
  Py.replace (String c old) new (stem ++ rest) = stem ++ Py.replace (String c old) new rest.
Proof.
  unfold Py.replace. induction stem as [|x stem IH]; intros Hfree; [done|].
  simpl in Hfree. apply andb_true_iff in Hfree as [Hx Hfree].
  rewrite !string_app_cons, replace_scan_miss, IH; [done..|].
  simpl. destruct (ascii_dec c x) as [->|]; [|done].
  unfold differs_from in Hx. by rewrite Ascii.eqb_refl in Hx.
Qed.

(** X5. The names of a download in a known container: when the name
    the downloader gives is a stem without a dot followed by [.webm] or
    [.m4a], the model is handed the stem with [.mp3] and the transcript
    is written to the stem with [.txt]. *)
Theorem known_container_names (model_size video_id : string)
    (fetch_description hide_verbose : bool) (w : World) (fs : gmap string string)
    (stem ext model_name result_text : string) (model : Model) :
  existsb (fun file_name => Py.contains video_id file_name)
          (map fst (map_to_list (files w))) = false ->
  ydl_download (ydl_opts video_id fetch_description hide_verbose)
    ("https://www.youtube.com/watch?v=" ++ video_id) (files w) = (None, fs) ->
  string_forall (differs_from ".") stem = true ->
  ext = ".webm" \/ ext = ".m4a" ->
  ydl_prepare_filename (ydl_opts video_id fetch_description hide_verbose)
    ("https://www.youtube.com/watch?v=" ++ video_id) = Returned (stem ++ ext) ->
  model_sizes_get model_size = Some model_name ->
  whisper_load_model model_name (device cuda_is_available) = Returned model ->
  model_transcribe model (stem ++ ".mp3") fs = Returned result_text ->
  exists w',
    get_OpenAI_transcript model_size video_id fetch_description hide_verbose w =
      (Returned tt, w') /\
    Transcribe (stem ++ ".mp3") ∈ trace w' /\
    files w' = <[stem ++ ".txt" := Py.strip (Py.replace newline " " result_text)]> fs.
Proof.
  intros Hnew Hdl Hstem Hext Hpath Hsize Hload Htext.
  assert (Py.replace ".m4a" ".mp3" (Py.replace ".webm" ".mp3" (stem ++ ext)) = stem ++ ".mp3")
    as Haudio.
  { destruct Hext as [-> | ->];
      rewrite (replace_free_prefix "." "webm" ".mp3" stem) by done;
      change (Py.replace ".webm" ".mp3" ".webm") with ".mp3";
      change (Py.replace ".webm" ".mp3" ".m4a") with ".m4a";
      by rewrite (replace_free_prefix "." "m4a" ".mp3" stem). }
  assert (Py.replace ".mp3" ".txt" (stem ++ ".mp3") = stem ++ ".txt") as Hname
    by by rewrite (replace_free_prefix "." "mp3" ".txt" stem).
  eexists. split.
  - eapply get_OpenAI_transcript_transcribes; try done. by rewrite Haudio.
  - simpl. rewrite Haudio, Hname. split; [|done].
    apply list_elem_of_In, in_app_iff. right. simpl. tauto.
Qed.

End ItemsMore.

(** ** The transcriber: the batch around the items *)

Section BatchMore.

Import Transcriber.

Context (ydl_download : YdlOpts -> string -> gmap string string -> option exn * gmap string string)
        (ydl_prepare_filename : YdlOpts -> string -> outcome string)
        (cuda_is_available : bool)
        (Model : Type)
        (whisper_load_model : string -> string -> outcome Model)
        (model_transcribe : Model -> string -> gmap string string -> outcome string)
        (pd_read_csv : string -> gmap string string -> outcome DataFrame)
        (os_remove_error : string -> option exn).

Local Abbreviation get_OpenAI_transcript :=
  (get_OpenAI_transcript ydl_download ydl_prepare_filename cuda_is_available Model
     whisper_load_model model_transcribe).
Local Abbreviation transcribe_loop :=
  (transcribe_loop ydl_download ydl_prepare_filename cuda_is_available Model
     whisper_load_model model_transcribe).
Local Abbreviation main :=
  (main ydl_download ydl_prepare_filename cuda_is_available Model
     whisper_load_model model_transcribe pd_read_csv os_remove_error).

(** X3. A download that fails with one of the two handled errors does
    not stop the batch: the item prints its notice, nothing is
    transcribed or written, the directory is the one the downloader
    left, and the loop goes on with the remaining identifiers. *)
Theorem download_failure_is_not_fatal (cfg : Config) (video_id : string)
    (rest : list string) (w : World) (e : exn) (msg : string) (fs : gmap string string) :
  existsb (fun file_name => Py.contains video_id file_name)
          (map fst (map_to_list (files w))) = false ->
  ydl_download (ydl_opts video_id (fetch_description cfg) (hide_verbose cfg))
    ("https://www.youtube.com/watch?v=" ++ video_id) (files w) = (Some e, fs) ->
  e = ExtractorError msg \/ e = DownloadError msg ->
  exists line,
    transcribe_loop cfg (video_id :: rest) w =
    transcribe_loop cfg rest
      {| files := fs;
         trace := (trace w ++ [Print ("Started with video ID: " ++ video_id);
                               Download ("https://www.youtube.com/watch?v=" ++ video_id);
                               Print line])%list |}.
Proof.
  intros Hnew Hdl He.
  destruct (get_OpenAI_transcript_download_failed ydl_download ydl_prepare_filename
              cuda_is_available Model whisper_load_model model_transcribe
              (model_size cfg) video_id (fetch_description cfg) (hide_verbose cfg)
              (log w [Print ("Started with video ID: " ++ video_id)]) e msg fs Hnew Hdl He)
    as [line Hitem].
  exists line. cbn [Transcriber.transcribe_loop]. unfold bind at 1. unfold print, emit.
  unfold bind at 1. unfold log in Hitem. rewrite Hitem. simpl.
  by rewrite <- app_assoc.
Qed.

(** X8. A transcribed video is done for the next run: when the name of
    the transcript contains the identifier, as the download template
    arranges, a second call of [get_OpenAI_transcript] for the same
    identifier only prints that the video is already there. *)
Theorem second_call_skips_transcribed_video (model_size video_id : string)
    (fetch_description hide_verbose : bool) (w : World) (fs : gmap string string)
    (path model_name result_text : string) (model : Model) :
  existsb (fun file_name => Py.contains video_id file_name)
          (map fst (map_to_list (files w))) = false ->
  ydl_download (ydl_opts video_id fetch_description hide_verbose)
    ("https://www.youtube.com/watch?v=" ++ video_id) (files w) = (None, fs) ->
  ydl_prepare_filename (ydl_opts video_id fetch_description hide_verbose)
    ("https://www.youtube.com/watch?v=" ++ video_id) = Returned path ->
  model_sizes_get model_size = Some model_name ->
  whisper_load_model model_name (device cuda_is_available) = Returned model ->
  let file_path := Py.replace ".m4a" ".mp3" (Py.replace ".webm" ".mp3" path) in
  let name := Py.replace ".mp3" ".txt" file_path in
  model_transcribe model file_path fs = Returned result_text ->
  Py.contains video_id name = true ->
  exists w',
    get_OpenAI_transcript model_size video_id fetch_description hide_verbose w =
      (Returned tt, w') /\
    get_OpenAI_transcript model_size video_id fetch_description hide_verbose w' =
      (Returned tt, log w' [Print "Video ID is in at least one file name."]).
Proof.
  intros Hnew Hdl Hpath Hsize Hload file_path name Htext Hname.
  eexists. split; [by eapply get_OpenAI_transcript_transcribes|].
  unfold Transcriber.get_OpenAI_transcript at 1. unfold bind, os_listdir.
  rewrite (existsb_listdir video_id name); [done| |done].
  simpl. fold file_path. fold name. rewrite lookup_insert_eq. eauto.
Qed.

Lemma no_removal_missing_warnings (col : list cell) :
  forall index, no_removal (missing_warnings index col) = true.
Proof.
  induction col as [|c col IH]; intros index; [done|].
  simpl. unfold no_removal in *. rewrite forallb_app, IH.
  by destruct (isnull c).
Qed.

Lemma videos_to_transcribe_trace (df : DataFrame) (start_video_id : string) (w : World) :
  exists evs,
    (videos_to_transcribe df start_video_id w).2 = log w evs /\ no_removal evs = true.
Proof.
  unfold videos_to_transcribe. case_bool_decide.
  - unfold bind. destruct (negb _ && negb _).
    + destruct (matching_index _ _ _) as [|i l]; simpl.
      * exists []. by rewrite log_nil.
      * rewrite iterrows_loop_spec. eexists. split; [done|].
        apply no_removal_missing_warnings.
    + simpl. rewrite iterrows_loop_spec. eexists. split; [done|].
      apply no_removal_missing_warnings.
  - eexists. split; [reflexivity|done].
Qed.

(** X9. A run that ends with an exception has removed a file only if
    the exception is the cleanup's own.  Either nothing was removed
    (the table could not be read, the start identifier was not found,
    an item raised), or the exception is the one the system raised
    when it refused to remove an entry whose name ends in [.mp3], and
    that entry is still in the directory. *)
Theorem failed_run_removes_only_in_cleanup (cfg : Config) (w w' : World) (e : exn) :
  main cfg w = (Raised e, w') ->
  exists evs,
    trace w' = (trace w ++ evs)%list /\
    (no_removal evs = true \/
     exists name,
       has_extension name ".mp3" /\ os_remove_error name = Some e /\
       is_Some (files w' !! name)).
Proof.
  intros Hmain.
  destruct (pd_read_csv (videos_info_file cfg) (files w)) as [df|e0] eqn:Hdf.
  - rewrite (main_unfold _ _ _ _ _ _ _ _ _ _ _ Hdf) in Hmain.
    destruct (videos_to_transcribe_trace df (start_video_id cfg)
                (log w [device_notice cuda_is_available])) as (evs1 & Hw1 & Hn1).
    destruct (videos_to_transcribe _ _ _) as [[ids|e1] w1]; simpl in Hw1; subst w1.
    + destruct (transcribe_loop_trace ydl_download ydl_prepare_filename cuda_is_available
                  Model whisper_load_model model_transcribe cfg ids
                  (log (log w [device_notice cuda_is_available]) evs1))
        as (evs2 & Hw2 & Hn2).
      destruct (transcribe_loop _ _ _) as [[[]|e2] w2]; simpl in Hw2.
      * destruct (delete_mp3_files_spec Model whisper_load_model pd_read_csv os_remove_error w2)
          as (w3 & Hdel & Hfiles & Htrace).
        rewrite Hdel in Hmain. unfold cleanup_outcome in Hmain.
        destruct (first_refusal os_remove_error (mp3_files_of w2)) as [e3|] eqn:Hfirst;
          [|done].
        injection Hmain as <- <-.
        destruct (first_refusal_some _ _ _ Hfirst) as (name & Hin & Hname & Hkept).
        apply mp3_files_of_spec in Hin as [Hthere Hext].
        eexists. split; [rewrite Htrace, Hw2; simpl; by rewrite <- !app_assoc|].
        right. exists name. repeat split; try done.
        rewrite Hfiles. by rewrite decide_False.
      * injection Hmain as <- <-. rewrite Hw2. simpl.
        eexists. split; [by rewrite <- !app_assoc|].
        left. unfold no_removal in *. by rewrite !forallb_app, Hn1, Hn2.
    + injection Hmain as <- <-. simpl.
      eexists. split; [by rewrite <- !app_assoc|].
      left. unfold no_removal in *. by rewrite forallb_app, Hn1.
  - unfold Transcriber.main, bind, print, emit in Hmain. simpl in Hmain.
    rewrite Hdf in Hmain. injection Hmain as <- <-. simpl. eexists. split; [done|by left].
Qed.

End BatchMore.

(** ** The transcriber: the cleanup on its own *)

Section CleanupMore.

Import Transcriber.

Context (os_remove_error : string -> option exn).

Local Abbreviation delete_mp3_files := (delete_mp3_files os_remove_error).

(** X10. The cleanup is complete and repeatable when the system
    refuses none of its removals: [delete_mp3_files] returns,
    afterwards the directory holds no entry whose name is a stem
    followed by [.mp3] while every other entry is as it was, and a
    second call right after finds nothing to remove and changes
    nothing. *)
Theorem delete_mp3_files_twice (w : World) :
  (forall name,
     is_Some (files w !! name) -> has_extension name ".mp3" -> os_remove_error name = None) ->
  exists w',
    delete_mp3_files w = (Returned tt, w') /\
    (forall name, has_extension name ".mp3" -> files w' !! name = None) /\
    (forall name, ~ has_extension name ".mp3" -> files w' !! name = files w !! name) /\
    delete_mp3_files w' = (Returned tt, w').
Proof.
  intros Hfree.
  destruct (delete_mp3_files_spec unit (fun _ _ => Returned tt)
              (fun _ _ => Raised (OtherError "")) os_remove_error w)
    as (w' & Hdel & Hfiles & _).
  pose proof (first_refusal_none os_remove_error w Hfree) as Hnone.
  unfold cleanup_outcome in Hdel. rewrite Hnone in Hdel.
  rewrite (removed_before_refusal_all _ _ Hnone) in Hfiles.
  assert (forall name, has_extension name ".mp3" -> files w' !! name = None) as Hgone.
  { intros name Hext. rewrite Hfiles. case_decide as Hin; [done|].
    destruct (files w !! name) as [v|] eqn:Hv; [|done].
    exfalso. apply Hin, mp3_files_of_spec. eauto. }
  exists w'. split; [done|]. split; [done|]. split.
  { intros name Hext. rewrite Hfiles. rewrite decide_False; [done|].
    by intros [_ ?]%mp3_files_of_spec. }
  destruct (delete_mp3_files_spec unit (fun _ _ => Returned tt)
              (fun _ _ => Raised (OtherError "")) os_remove_error w')
    as (w'' & Hdel' & Hfiles' & Htrace').
  assert (mp3_files_of w' = []) as Hempty.
  { destruct (mp3_files_of w') as [|n l] eqn:Hl; [done|]. exfalso.
    assert (n ∈ mp3_files_of w') as Hn by (rewrite Hl; by left).
    apply mp3_files_of_spec in Hn as [[v Hv] Hext].
    rewrite (Hgone n Hext) in Hv. done. }
  rewrite Hempty in Hdel', Hfiles', Htrace'. simpl in *.
  rewrite Hdel'. unfold cleanup_outcome. simpl. f_equal.
  rewrite app_nil_r in Htrace'.
  destruct w' as [f' t'], w'' as [f'' t'']. simpl in *. f_equal; [|done].
  apply map_eq. intros name. rewrite Hfiles'.
  by repeat case_decide.
Qed.

End CleanupMore.

(** ** The transcriber on the samples *)

Section SampleItemsFacts.

Import Transcriber.

Lemma videos_to_transcribe_from_the_top_witness :
  videos_to_transcribe sample_table "" sample_world =
  (Returned ["aaaaaaaaaaa"; "bbbbbbbbbbb"; "ccccccccccc"],
   log sample_world [Print "Warning: No 'Video ID' found in row 2"]).
Proof.
  apply (videos_to_transcribe_from_the_top sample_table sample_world).
  apply (bool_decide_unpack _). vm_compute. exact I.
Defined.

Lemma videos_to_transcribe_empty_table_witness :
  videos_to_transcribe empty_table "bbbbbbbbbbb" fresh_world = (Returned [], fresh_world).
Proof.
  apply (videos_to_transcribe_empty_table empty_table "bbbbbbbbbbb" fresh_world).
  - apply (bool_decide_unpack _). vm_compute. exact I.
  - reflexivity.
Defined.

Lemma download_failure_is_not_fatal_witness :
  exists line,
    transcribe_loop failing_download sample_prepare_filename false unit sample_load_model
      sample_transcribe (sample_config "") ["bbbbbbbbbbb"; "ccccccccccc"] fresh_world =
    transcribe_loop failing_download sample_prepare_filename false unit sample_load_model
      sample_transcribe (sample_config "") ["ccccccccccc"]
      {| files := <["partial.part" := "audio"]> ∅;
         trace := [Print "Started with video ID: bbbbbbbbbbb";
                   Download "https://www.youtube.com/watch?v=bbbbbbbbbbb";
                   Print line] |}.
Proof.
  apply (download_failure_is_not_fatal failing_download sample_prepare_filename false unit
           sample_load_model sample_transcribe (sample_config "") "bbbbbbbbbbb"
           ["ccccccccccc"] fresh_world (DownloadError "ERROR: Video unavailable")
           "ERROR: Video unavailable" (<["partial.part" := "audio"]> ∅)).
  - vm_compute. reflexivity.
  - reflexivity.
  - right. reflexivity.
Defined.

Lemma transcript_written_beside_audio_witness :
  exists w' text,
    get_OpenAI_transcript sample_download sample_prepare_filename false unit
      sample_load_model sample_transcribe "medium" "bbbbbbbbbbb" false true fresh_world =
      (Returned tt, w') /\
    files w' = <["Talk bbbbbbbbbbb.txt" := text]> (<["Talk bbbbbbbbbbb.mp3" := "audio"]> ∅) /\
    tidy text /\
    (forall other, other <> "Talk bbbbbbbbbbb.txt" ->
       files w' !! other = (<["Talk bbbbbbbbbbb.mp3" := "audio"]> ∅ : gmap string string) !! other) /\
    trace w' =
      [Download "https://www.youtube.com/watch?v=bbbbbbbbbbb";
       ExtractInfo "https://www.youtube.com/watch?v=bbbbbbbbbbb";
       LoadModel "medium.en" "cpu";
       Transcribe "Talk bbbbbbbbbbb.mp3";
       WriteFile "Talk bbbbbbbbbbb.txt" text;
       Print "############# Done video: Talk bbbbbbbbbbb.txt #############"].
Proof.
  apply (transcript_written_beside_audio sample_download sample_prepare_filename false unit
           sample_load_model sample_transcribe "medium" "bbbbbbbbbbb" false true fresh_world
           (<["Talk bbbbbbbbbbb.mp3" := "audio"]> ∅) "Talk bbbbbbbbbbb.webm" "medium.en"
           (" hello" ++ newline ++ "world ") tt).
  - vm_compute. reflexivity.
  - reflexivity.
  - reflexivity.
  - reflexivity.
  - reflexivity.
  - reflexivity.
Defined.

Lemma known_container_names_witness :
  exists w',
    get_OpenAI_transcript sample_download sample_prepare_filename false unit
      sample_load_model sample_transcribe "medium" "bbbbbbbbbbb" false true fresh_world =
      (Returned tt, w') /\
    Transcribe "Talk bbbbbbbbbbb.mp3" ∈ trace w' /\
    files w' = <["Talk bbbbbbbbbbb.txt" := "hello world"]>
                 (<["Talk bbbbbbbbbbb.mp3" := "audio"]> ∅).
Proof.
  apply (known_container_names sample_download sample_prepare_filename false unit
           sample_load_model sample_transcribe "medium" "bbbbbbbbbbb" false true fresh_world
           (<["Talk bbbbbbbbbbb.mp3" := "audio"]> ∅) "Talk bbbbbbbbbbb" ".webm" "medium.en"
           (" hello" ++ newline ++ "world ") tt).
  - vm_compute. reflexivity.
  - reflexivity.
  - vm_compute. reflexivity.
  - left. reflexivity.
  - reflexivity.
  - reflexivity.
  - reflexivity.
  - reflexivity.
Defined.

Lemma unknown_container_keeps_its_name_witness :
  exists w',
    get_OpenAI_transcript sample_download opus_prepare_filename false unit
      sample_load_model sample_transcribe "medium" "bbbbbbbbbbb" false true fresh_world =
      (Returned tt, w') /\
    Transcribe "Talk bbbbbbbbbbb.opus" ∈ trace w' /\
    files w' = <["Talk bbbbbbbbbbb.opus" := "hello world"]>
                 (<["Talk bbbbbbbbbbb.mp3" := "audio"]> ∅).
Proof.
  apply (unknown_container_keeps_its_name sample_download opus_prepare_filename false unit
           sample_load_model sample_transcribe "medium" "bbbbbbbbbbb" false true fresh_world
           (<["Talk bbbbbbbbbbb.mp3" := "audio"]> ∅) "Talk bbbbbbbbbbb.opus" "medium.en"
           (" hello" ++ newline ++ "world ") tt).
  - vm_compute. reflexivity.
  - reflexivity.
  - reflexivity.
  - vm_compute. reflexivity.
  - vm_compute. reflexivity.
  - vm_compute. reflexivity.
  - reflexivity.
  - reflexivity.
  - reflexivity.
Defined.

Lemma invalid_model_size_raises_after_download_witness :
  get_OpenAI_transcript sample_download sample_prepare_filename false unit
    sample_load_model sample_transcribe "huge" "bbbbbbbbbbb" false true fresh_world =
  (Raised (ValueError
     "Invalid model size. Please choose from: 'tiny', 'base', 'small', 'medium', 'large'."),
   {| files := <["Talk bbbbbbbbbbb.mp3" := "audio"]> ∅;
      trace := [Download "https://www.youtube.com/watch?v=bbbbbbbbbbb";
                ExtractInfo "https://www.youtube.com/watch?v=bbbbbbbbbbb"] |}).
Proof.
  apply (invalid_model_size_raises_after_download sample_download sample_prepare_filename
           false unit sample_load_model sample_transcribe "huge" "bbbbbbbbbbb" false true
           fresh_world (<["Talk bbbbbbbbbbb.mp3" := "audio"]> ∅) "Talk bbbbbbbbbbb.webm").
  - vm_compute. reflexivity.
  - reflexivity.
  - reflexivity.
  - reflexivity.
Defined.

Lemma second_call_skips_transcribed_video_witness :
  exists w',
    get_OpenAI_transcript sample_download sample_prepare_filename false unit
      sample_load_model sample_transcribe "medium" "bbbbbbbbbbb" false true fresh_world =
      (Returned tt, w') /\
    get_OpenAI_transcript sample_download sample_prepare_filename false unit
      sample_load_model sample_transcribe "medium" "bbbbbbbbbbb" false true w' =
      (Returned tt, log w' [Print "Video ID is in at least one file name."]).
Proof.
  apply (second_call_skips_transcribed_video sample_download sample_prepare_filename false
           unit sample_load_model sample_transcribe "medium" "bbbbbbbbbbb" false true
           fresh_world (<["Talk bbbbbbbbbbb.mp3" := "audio"]> ∅) "Talk bbbbbbbbbbb.webm"
           "medium.en" (" hello" ++ newline ++ "world ") tt).
  - vm_compute. reflexivity.
  - reflexivity.
  - reflexivity.
  - reflexivity.
  - reflexivity.
  - reflexivity.
  - vm_compute. reflexivity.
Defined.

Lemma failed_run_removes_only_in_cleanup_witness :
  exists evs,
    trace (refusing_main sample_table "" sample_world).2 = (trace sample_world ++ evs)%list /\
    (no_removal evs = true \/
     exists name,
       has_extension name ".mp3" /\
       refusing_remove_error name =
         Some (OtherError "PermissionError: [Errno 13] Permission denied") /\
       is_Some (files (refusing_main sample_table "" sample_world).2 !! name)).
Proof.
  apply (failed_run_removes_only_in_cleanup sample_download sample_prepare_filename false unit
           sample_load_model sample_transcribe (fun _ _ => Returned sample_table)
           refusing_remove_error (sample_config "") sample_world
           (refusing_main sample_table "" sample_world).2
           (OtherError "PermissionError: [Errno 13] Permission denied")).
  vm_compute. reflexivity.
Defined.

Lemma delete_mp3_files_twice_witness :
  exists w',
    delete_mp3_files sample_remove_error sample_world = (Returned tt, w') /\
    (forall name, has_extension name ".mp3" -> files w' !! name = None) /\
    (forall name, ~ has_extension name ".mp3" ->
       files w' !! name = files sample_world !! name) /\
    delete_mp3_files sample_remove_error w' = (Returned tt, w').
Proof.
  apply (delete_mp3_files_twice sample_remove_error sample_world).
  intros name Hthere Hext. reflexivity.
Defined.

End SampleItemsFacts.

(** ** The collector: what cleaning a URL gives *)

Section CleaningMore.

Import Collector.

Lemma first_piece_char_free (c : ascii) (s : string) :
  forall cur : string,
    string_forall (differs_from c) cur = true ->
    string_forall (differs_from c)
      (Py.first_piece (Py.split_scan (String c "") s 0 cur)) = true.
Proof.
  induction s as [|x s IH]; intros cur Hcur; [done|].
  cbn [Py.split_scan]. rewrite prefix_char.
  destruct (Ascii.eqb x c) eqn:Hx; [done|].
  apply IH. rewrite string_forall_app, Hcur. simpl.
  unfold differs_from. by rewrite Hx.
Qed.

Lemma first_piece_split_char (c : ascii) (s : string) :
  forall cur : string,
    exists rest,
      cur ++ s = Py.first_piece (Py.split_scan (String c "") s 0 cur) ++ rest.
Proof.
  induction s as [|x s IH]; intros cur; [by exists ""|].
  cbn [Py.split_scan]. rewrite prefix_char.
  destruct (Ascii.eqb x c); [by exists (String x s)|].
  destruct (IH (cur ++ String x "")) as [rest Hrest]. exists rest.
  rewrite <- Hrest, string_app_assoc. by rewrite string_app_cons, string_app_nil_l.
Qed.

Lemma contains_app_r (sub a b : string) :
  Py.contains sub b = true -> Py.contains sub (a ++ b) = true.
Proof.
  intros Hb. induction a as [|x a IH]; [by rewrite string_app_nil_l|].
  rewrite string_app_cons. cbn [Py.contains]. rewrite IH. apply orb_true_r.
Qed.

Lemma lstrip_suffix (s : string) : exists spaces, s = spaces ++ Py.lstrip s.
Proof.
  induction s as [|x s [spaces IH]]; [by exists ""|].
  simpl. destruct (Py.isspace x); [|by exists ""].
  exists (String x spaces). by rewrite string_app_cons, <- IH.
Qed.

Lemma rstrip_prefix (s : string) : exists spaces, s = Py.rstrip s ++ spaces.
Proof.
  induction s as [|x s [spaces IH]]; [by exists ""|].
  simpl. destruct (Py.rstrip s) as [|y r] eqn:Hr.
  - rewrite string_app_nil_l in IH. subst spaces.
    destruct (Py.isspace x); [by exists (String x s)|by exists s].
  - exists spaces. by rewrite string_app_cons, <- IH.
Qed.

Lemma contains_strip (sub s : string) :
  Py.contains sub (Py.strip s) = true -> Py.contains sub s = true.
Proof.
  unfold Py.strip. intros Hsub.
  destruct (lstrip_suffix s) as [before Hbefore].
  destruct (rstrip_prefix (Py.lstrip s)) as [after Hafter].
  rewrite Hbefore. apply contains_app_r. rewrite Hafter. by apply contains_app_l.
Qed.

Lemma contains_first_piece (sub : string) (c : ascii) (s : string) :
  Py.contains sub (Py.first_piece (Py.split (String c "") s)) = true ->
  Py.contains sub s = true.
Proof.
  unfold Py.split. intros Hsub.
  destruct (first_piece_split_char c s "") as [rest Hrest].
  rewrite string_app_nil_l in Hrest. rewrite Hrest. by apply contains_app_l.
Qed.

Lemma clean_url_free_of_amp (url : string) :
  string_forall (differs_from "&") (clean_url url) = true.
Proof.
  unfold clean_url. apply strip_forall. unfold Py.split. by apply first_piece_char_free.
Qed.

(** X11. What [clean_url] returns is clean, whatever it is given: the
    result holds no [&] and no white space at either end, so cleaning
    strips nothing more from it. *)
Theorem clean_url_result_is_clean (url : string) :
  string_forall (differs_from "&") (clean_url url) = true /\
  Py.strip (clean_url url) = clean_url url.
Proof.
  split; [apply clean_url_free_of_amp|]. unfold clean_url. apply strip_idempotent.
Qed.

(** X12. On a URL that does not contain [youtu.be], [clean_url] is
    idempotent: the URL is cut at its first [&] and stripped, and
    cleaning the result again changes nothing. *)
Theorem clean_url_idempotent (url : string) :
  Py.contains "youtu.be" url = false ->
  clean_url url = Py.strip (Py.first_piece (Py.split "&" url)) /\
  clean_url (clean_url url) = clean_url url.
Proof.
  intros Hlong.
  assert (clean_url url = Py.strip (Py.first_piece (Py.split "&" url))) as Hclean
    by (unfold clean_url, convert_short_youtube_url; by rewrite Hlong).
  split; [done|].
  pose proof (clean_url_free_of_amp url) as Hamp.
  assert (Py.contains "youtu.be" (clean_url url) = false) as Hstill.
  { destruct (Py.contains "youtu.be" (clean_url url)) eqn:Hc; [|done].
    rewrite Hclean in Hc. apply contains_strip, contains_first_piece in Hc. congruence. }
  unfold clean_url at 1, convert_short_youtube_url. rewrite Hstill.
  unfold Py.split. rewrite (split_scan_free _ _ "" Hamp), string_app_nil_l.
  unfold clean_url. apply strip_idempotent.
Qed.

End CleaningMore.

(** ** The collector: records, files and failures *)

Section CollectionMore.

Import Collector.

Context (fetch : string -> fetch_result) (strptime_strftime : string -> option string)
        (csv_reader : string -> list (list string))
        (csv_writerow : list string -> string)
        (open_append_error : string -> option string).

Local Abbreviation get_date_published := (get_date_published strptime_strftime).
Local Abbreviation get_video_info := (get_video_info fetch strptime_strftime).
Local Abbreviation scrape_loop := (scrape_loop fetch strptime_strftime).
Local Abbreviation read_urls_from_csv := (read_urls_from_csv csv_reader).
Local Abbreviation write_video_info_to_csv :=
  (write_video_info_to_csv csv_writerow open_append_error).
Local Abbreviation scrape_and_write_video_info :=
  (scrape_and_write_video_info fetch strptime_strftime csv_reader csv_writerow
     open_append_error).
Local Abbreviation made_from := (made_from fetch strptime_strftime).

(** X14. [get_video_info] returns a record exactly for a complete
    page: the URL contains [youtube.com/watch], the page was fetched,
    each of the four tags is there with a content, identifier and title
    are not empty, the date converts (to a non-empty text) and the
    duration parses; the record then holds these values. *)
Theorem record_iff_complete_page (url : string) (vi : VideoInfo) :
  get_video_info url = Returned (Some vi) <->
  Py.contains "youtube.com/watch" url = true /\
  exists soup date_published duration_str,
    fetch url = Fetched soup /\
    itemprop_identifier soup = Some (Some (Video_ID vi)) /\ Video_ID vi <> "" /\
    itemprop_name soup = Some (Some (Video_Title vi)) /\ Video_Title vi <> "" /\
    itemprop_datePublished soup = Some (Some date_published) /\
    strptime_strftime date_published = Some (Date_Published vi) /\
    Date_Published vi <> "" /\
    itemprop_duration soup = Some (Some duration_str) /\
    parse_duration duration_str = Returned (Duration vi, Duration_sec vi).
Proof.
  unfold Collector.get_video_info, get_video_info_body. split.
  - destruct (Py.contains "youtube.com/watch" url); [|done]. simpl.
    destruct (fetch url) as [soup|e]; [|done]. intros Hinfo. split; [done|].
    unfold Collector.get_date_published, get_duration, get_video_ID, get_title in Hinfo.
    destruct soup as [[[video_ID|]|] [[title|]|] [[date|]|] [[duration|]|]];
      simpl in Hinfo; try done;
      try (destruct (strptime_strftime date) as [d|] eqn:Hdate; simpl in Hinfo; try done);
      try (destruct (parse_duration duration) as [[dur sec]|e] eqn:Hdur; simpl in Hinfo;
           try done);
      try (by destruct (String.eqb title ""); simpl in Hinfo);
      try (by destruct (String.eqb title ""), (String.eqb video_ID ""); simpl in Hinfo).
    destruct (String.eqb title "") eqn:Htitle; [done|].
    destruct (String.eqb video_ID "") eqn:Hid; [done|].
    destruct (String.eqb d "") eqn:Hd; [done|]. simpl in Hinfo.
    injection Hinfo as <-. simpl.
    apply String.eqb_neq in Htitle, Hid, Hd.
    exists {| itemprop_identifier := Some (Some video_ID); itemprop_name := Some (Some title);
              itemprop_datePublished := Some (Some date);
              itemprop_duration := Some (Some duration) |}, date, duration.
    by repeat split.
  - intros (Hwatch & soup & date & duration & Hfetch & Hid & Hid' & Htitle & Htitle' &
            Hdate & Hconv & Hdate' & Hdur & Hparse).
    rewrite Hwatch, Hfetch. simpl.
    unfold Collector.get_date_published, get_duration, get_video_ID, get_title.
    rewrite Hid, Htitle, Hdate, Hconv, Hdur, Hparse. simpl.
    apply String.eqb_neq in Htitle', Hid', Hdate'. rewrite Htitle', Hid', Hdate'. simpl.
    by destruct vi.
Qed.

Lemma parse_duration_needs_minutes (duration_str : string) :
  Py.contains "M" duration_str = false ->
  exists e, parse_duration duration_str = Raised e.
Proof.
  intros HnoM. unfold parse_duration, Py.split.
  rewrite (split_scan_no_occurrence "M" duration_str "" HnoM). simpl.
  destruct (Py.int_of_str _); eauto.
Qed.

Lemma collection_aborts_on (url : string) (e0 : exn) :
  is_valid_youtube_url url = true ->
  get_video_info url = Raised e0 ->
  forall input_file output_file w text other_fields,
    csv_files w !! input_file = Some text ->
    (url :: other_fields) ∈ csv_reader text ->
    exists e w',
      scrape_and_write_video_info input_file output_file w = (Raised e, w') /\
      csv_files w' = csv_files w.
Proof.
  intros Hvalid Hraise input_file output_file w text other_fields Hrows Hrow.
  unfold Collector.scrape_and_write_video_info, bind at 1, Collector.read_urls_from_csv.
  rewrite Hrows. unfold ret at 1. unfold bind.
  match goal with
  | |- context [Collector.scrape_loop _ _ 1 ?l [] w] =>
      destruct (scrape_loop_aborts fetch strptime_strftime url e0 l) with
        (number := 1%Z) (video_info_list := @nil ItemRecord) (w := w)
        as (e & w' & Hloop & Hw'); [|done|]
  end.
  - apply list_elem_of_omap. exists (url :: other_fields). split; [done|].
    by rewrite Hvalid.
  - rewrite Hloop. eauto.
Qed.

(** X15. A duration without an [M] ends the whole collection: for a
    fetched page whose duration content holds no [M] (seconds only,
    say), the parser raises, so does [get_video_info], and a run whose
    input file has that URL in a row ends with an exception and
    changes no CSV file. *)
Theorem duration_without_minutes_aborts (url : string) (soup : Soup)
    (duration_str : string) :
  Py.contains "youtube.com/watch" url = true ->
  fetch url = Fetched soup ->
  itemprop_duration soup = Some (Some duration_str) ->
  Py.contains "M" duration_str = false ->
  (exists e, get_duration soup = Raised e) /\
  (exists e, get_video_info url = Raised e) /\
  forall input_file output_file w text other_fields,
    csv_files w !! input_file = Some text ->
    (url :: other_fields) ∈ csv_reader text ->
    exists e w',
      scrape_and_write_video_info input_file output_file w = (Raised e, w') /\
      csv_files w' = csv_files w.
Proof.
  intros Hwatch Hfetch Hdur HnoM.
  destruct (parse_duration_needs_minutes duration_str HnoM) as [e0 Hparse].
  assert (get_duration soup = Raised e0) as Hget
    by (unfold get_duration; by rewrite Hdur, Hparse).
  assert (exists e, get_video_info url = Raised e) as [e Hinfo].
  { unfold Collector.get_video_info, get_video_info_body.
    rewrite Hwatch, Hfetch, Hget. simpl.
    destruct (Collector.get_date_published _ _); simpl; eauto. }
  split; [eauto|]. split; [eauto|].
  apply (collection_aborts_on url e); [|done].
  unfold is_valid_youtube_url. by rewrite Hwatch.
Qed.

Lemma scrape_loop_records (urls : list string) :
  forall (number : Z) (video_info_list : list ItemRecord) (w : World) records w',
    scrape_loop number urls video_info_list w = (Returned records, w') ->
    exists added,
      records = (video_info_list ++ added)%list /\
      Forall (made_from number urls) added /\
      StronglySorted Z.lt (map Number added) /\
      (length added <= length urls)%nat.
Proof.
  induction urls as [|url rest IH]; intros number acc w records w' Hloop.
  - injection Hloop as <- <-. exists []. rewrite app_nil_r.
    repeat split; [constructor|constructor|done].
  - simpl in Hloop. unfold bind at 1, lift in Hloop.
    destruct (get_video_info url) as [[vi|]|e] eqn:Hinfo; [| |done].
    + assert (exists w0, scrape_loop (number + 1) rest
                (acc ++ [{| Number := number; info := vi; URL := clean_url url |}])%list w0 =
              (Returned records, w')) as [w0 Hrest].
      { unfold bind in Hloop. destruct (_ =? _)%Z; unfold print, ret in Hloop; eauto. }
      destruct (IH _ _ _ _ _ Hrest) as (added & -> & Hmade & Hsorted & Hlen).
      exists ({| Number := number; info := vi; URL := clean_url url |} :: added).
      rewrite <- app_assoc. split; [done|]. split; [|split].
      * constructor.
        -- split; [simpl; lia|]. exists url. simpl. by rewrite Z.sub_diag.
        -- eapply Forall_impl; [exact Hmade|].
           intros r (Hle & u & Hu & Hurl & Hr). split; [lia|]. exists u.
           replace (Z.to_nat (Number r - number)) with (S (Z.to_nat (Number r - (number + 1))))
             by lia.
           done.
      * simpl. constructor; [done|]. apply Forall_fmap.
        eapply Forall_impl; [exact Hmade|]. intros r [Hle _]. simpl. lia.
      * simpl. lia.
    + destruct (IH _ _ _ _ _ Hloop) as (added & -> & Hmade & Hsorted & Hlen).
      exists added. split; [done|]. split; [|split; [done|simpl; lia]].
      eapply Forall_impl; [exact Hmade|].
      intros r (Hle & u & Hu & Hurl & Hr). split; [lia|]. exists u.
      assert (number + 1 <= Number r)%Z by lia.
      replace (Z.to_nat (Number r - number)) with (S (Z.to_nat (Number r - (number + 1))))
        by lia.
      done.
Qed.


Lemma scrape_loop_files (urls : list string) :
  forall (number : Z) (video_info_list : list ItemRecord) (w : World),
    csv_files (scrape_loop number urls video_info_list w).2 = csv_files w.
Proof.
  induction urls as [|url rest IH]; intros number acc w; [done|].
  simpl. unfold bind at 1, lift.
  destruct (get_video_info url) as [[vi|]|e]; [| |done].
  - unfold bind. destruct (_ =? _)%Z; unfold print, ret; by rewrite IH.
  - apply IH.
Qed.

Lemma read_urls_from_csv_files (input_file : string) (w : World) :
  exists urls w0,
    read_urls_from_csv input_file w = (Returned urls, w0) /\ csv_files w0 = csv_files w.
Proof.
  unfold Collector.read_urls_from_csv. destruct (csv_files w !! input_file); eauto.
Qed.


Lemma writerows_app (first second : list ItemRecord) :
  writerows csv_writerow (first ++ second) =
  writerows csv_writerow first ++ writerows csv_writerow second.
Proof.
  induction first as [|r first IH]; simpl; [by rewrite string_app_nil_l|].
  by rewrite IH, string_app_assoc.
Qed.

Lemma string_app_empty (a b : string) : a ++ b = "" -> a = "".
Proof. destruct a; [done|]. by rewrite string_app_cons. Qed.

Lemma header_not_repeated (old header lines : string) :
  (if String.eqb (old ++ (if String.eqb old "" then header else "") ++ lines) ""
   then header else "") = "".
Proof.
  destruct (String.eqb (old ++ _ ++ lines) "") eqn:Hnew; [|done].
  apply String.eqb_eq in Hnew.
  pose proof (string_app_empty _ _ Hnew) as ->.
  rewrite string_app_nil_l in Hnew. simpl in Hnew.
  by apply string_app_empty in Hnew.
Qed.

(** X18. The header is written once: appending two batches of records
    to the same output file, one call after the other, leaves the
    files as a single call with both batches does, whatever the file
    held before. *)
Theorem write_video_info_to_csv_in_two_calls (first second : list ItemRecord)
    (output_file : string) (fieldnames : list string) (w : World) :
  csv_files
    ((write_video_info_to_csv first output_file fieldnames ;;;
      write_video_info_to_csv second output_file fieldnames)%py w).2 =
  csv_files (write_video_info_to_csv (first ++ second) output_file fieldnames w).2.
Proof.
  unfold bind, Collector.write_video_info_to_csv, print.
  destruct (open_append_error output_file) as [msg|]; simpl; [done|].
  rewrite lookup_insert_eq, insert_insert_eq. simpl. f_equal.
  rewrite header_not_repeated, writerows_app, string_app_nil_l.
  by rewrite !string_app_assoc.
Qed.

(** X19. A missing input file is reported and the run goes on: it
    prints the error, scrapes nothing and returns.  On the way it
    still opens the output file: when that works the file gets the
    header line if it held nothing, and no record, and the closing
    line is printed; when it does not, the error of the output file is
    printed as well and no file changes. *)
Theorem missing_input_still_writes_output (input_file output_file : string) (w : World) :
  csv_files w !! input_file = None ->
  scrape_and_write_video_info input_file output_file w =
  (Returned tt,
   match open_append_error output_file with
   | Some e =>
       {| csv_files := csv_files w;
          stdout := (stdout w ++ ["Error: Input file not found."; ("Error: " ++ e)%string])%list |}
   | None =>
       {| csv_files :=
            <[output_file := match default "" (csv_files w !! output_file) with
                             | "" => csv_writerow fieldnames
                             | old => old
                             end]> (csv_files w);
          stdout := (stdout w ++
                     ["Error: Input file not found.";
                      ("Videos Information have been extracted and exported to "
                       ++ output_file)%string])%list |}
   end).
Proof.
  intros Hmissing.
  unfold Collector.scrape_and_write_video_info, bind at 1, Collector.read_urls_from_csv.
  rewrite Hmissing. unfold bind, ret, Collector.write_video_info_to_csv, print.
  destruct (open_append_error output_file) as [msg|]; simpl.
  - by rewrite <- app_assoc.
  - rewrite <- app_assoc. simpl. do 3 f_equal.
    destruct (default "" (csv_files w !! output_file)) as [|c old]; simpl.
    + by rewrite string_app_nil_l, string_app_nil_r.
    + by rewrite !string_app_nil_l, string_app_nil_r.
Qed.

End CollectionMore.

(** ** The collector on the samples *)

Section SampleCollectionMoreFacts.

Import Collector.

Lemma clean_url_idempotent_witness :
  clean_url tracked_link = Py.strip (Py.first_piece (Py.split "&" tracked_link)) /\
  clean_url (clean_url tracked_link) = clean_url tracked_link.
Proof.
  apply (clean_url_idempotent tracked_link). vm_compute. reflexivity.
Defined.

Lemma clean_url_converges_on_plain_links_witness :
  clean_url (short_form "dQw4w9WgXcQ") = long_form "dQw4w9WgXcQ" /\
  clean_url (short_form "dQw4w9WgXcQ" ++ "?" ++ "si=abc") = long_form "dQw4w9WgXcQ" /\
  clean_url (long_form "dQw4w9WgXcQ") = long_form "dQw4w9WgXcQ" /\
  clean_url (long_form "dQw4w9WgXcQ" ++ "&" ++ "si=abc") = long_form "dQw4w9WgXcQ" /\
  clean_url (clean_url (short_form "dQw4w9WgXcQ")) = clean_url (short_form "dQw4w9WgXcQ").
Proof.
  apply (clean_url_converges_on_plain_links "dQw4w9WgXcQ" "si=abc").
  - vm_compute. reflexivity.
  - vm_compute. reflexivity.
Defined.

Lemma duration_without_minutes_aborts_witness :
  (exists e, get_duration (sample_soup_seconds_only "clip0000001") = Raised e) /\
  (exists e, get_video_info clip_fetch sample_strptime_strftime clip_url = Raised e) /\
  forall input_file output_file w text other_fields,
    csv_files w !! input_file = Some text ->
    (clip_url :: other_fields) ∈ sample_csv_reader text ->
    exists e w',
      scrape_and_write_video_info clip_fetch sample_strptime_strftime sample_csv_reader
        sample_csv_writerow sample_open_append_error input_file output_file w =
        (Raised e, w') /\
      csv_files w' = csv_files w.
Proof.
  apply (duration_without_minutes_aborts clip_fetch sample_strptime_strftime
           sample_csv_reader sample_csv_writerow sample_open_append_error clip_url
           (sample_soup_seconds_only "clip0000001") "PT45S").
  - vm_compute. reflexivity.
  - reflexivity.
  - reflexivity.
  - vm_compute. reflexivity.
Defined.


Lemma missing_input_still_writes_output_witness :
  sample_scrape_and_write_video_info "./video_url_list.csv" "./videos_info.csv" empty_world =
  (Returned tt,
   {| csv_files :=
        <["./videos_info.csv" :=
            "Number,Video ID,URL,Video Title,Date Published,Duration,Duration (sec)"
            ++ line_break]> ∅;
      stdout := ["Error: Input file not found.";
                 "Videos Information have been extracted and exported to ./videos_info.csv"] |}).
Proof.
  apply (missing_input_still_writes_output sample_fetch sample_strptime_strftime
           sample_csv_reader sample_csv_writerow sample_open_append_error
           "./video_url_list.csv" "./videos_info.csv" empty_world).
  reflexivity.
Defined.

End SampleCollectionMoreFacts.
